(** * WiFi record ingestion pipeline of [handlers.py]

    A shallow embedding of the decision logic of the bot's handlers:
    the record validator, the normalizer, the example-payload detector,
    the single-record and batch processors and the two entry points that
    classify a parsed JSON document.

    Parsed JSON documents are a tagged value type mirroring what
    [json.loads] builds; a Python [dict] with string keys is a
    [gmap string value] (the handlers treat every key on its own, so the
    insertion order of a [dict] plays no part).  Effects (calls to the storage controller, chat
    answers, log lines) are recorded in a trace which is threaded through
    a small state-and-exception monad. *)

From Stdlib Require Import ZArith String Ascii List Bool Lia.
From Stdlib Require Import Floats.SpecFloat.
From stdpp Require Import gmap strings list fin_maps.

Set Warnings "-register-all".
Open Scope string_scope.

(** ** Parsed JSON values

    [json.loads] yields [None], [bool], [int] (unbounded), [float]
    (IEEE binary64, including the non-standard [NaN]/[Infinity]
    literals), [str], [list] and [dict].  A [str] is kept as the bytes of
    its UTF-8 encoding. *)

Inductive value : Type :=
| VNone
| VBool (b : bool)
| VInt (z : Z)
| VFloat (f : spec_float)
| VStr (s : string)
| VList (l : list value)
| VDict (d : gmap string value).

#[export] Instance value_inhabited : Inhabited value := populate VNone.

Module Py.

(** [isinstance(v, str)] *)
Definition isinstance_str (v : value) : bool :=
  match v with VStr _ => true | _ => false end.

(** [isinstance(v, int)]: [bool] is a subclass of [int]. *)
Definition isinstance_int (v : value) : bool :=
  match v with VInt _ | VBool _ => true | _ => false end.

(** [isinstance(v, (int, float))] *)
Definition isinstance_int_float (v : value) : bool :=
  match v with VInt _ | VBool _ | VFloat _ => true | _ => false end.

(** [isinstance(v, dict)] *)
Definition isinstance_dict (v : value) : bool :=
  match v with VDict _ => true | _ => false end.

(** [len(v) == 0] for a string [v]; the encoding of a string is empty
    exactly when the string is. *)
Definition len_is_zero (v : value) : bool :=
  match v with VStr EmptyString => true | _ => false end.

Definition float_zero : spec_float := S754_zero false.

(** [v <= 0] on a number.  [True] is 1 and [False] is 0; a float is
    compared by its IEEE order, so [NaN <= 0] is false.  Every call
    site tests [isinstance] first, so other values never get here. *)
Definition le_zero (v : value) : bool :=
  match v with
  | VInt z => (z <=? 0)%Z
  | VBool b => negb b
  | VFloat f => SFleb f float_zero
  | _ => false
  end.

(** [v > 0] on a number. *)
Definition gt_zero (v : value) : bool :=
  match v with
  | VInt z => (0 <? z)%Z
  | VBool b => b
  | VFloat f => SFltb float_zero f
  | _ => false
  end.

(** [v == s] for a string literal [s]: only an equal [str] compares
    equal to a [str]. *)
Definition eq_str (v : value) (s : string) : bool :=
  match v with VStr s' => String.eqb s' s | _ => false end.

(** [key in keys] for a list literal of strings. *)
Definition in_list (key : string) (keys : list string) : bool :=
  bool_decide (key ∈ keys).

(** Truth value of a 2-tuple: a tuple is false only when it is empty. *)
Definition truthy_pair {A B : Type} (p : A * B) : bool := true.

End Py.

(** ** Record validator: [_validate_wifi_data] *)

Definition required_fields : list string :=
  ["bssid"; "frequency"; "rssi"; "ssid"; "timestamp"].

(** The first loop of the validator: the first required field, in list
    order, that is not a key of [data]. *)
Fixpoint first_missing (fields : list string) (data : gmap string value)
  : option string :=
  match fields with
  | [] => None
  | field :: rest =>
      match data !! field with
      | None => Some field
      | Some _ => first_missing rest data
      end
  end.

Definition _validate_wifi_data (data : gmap string value) : bool * string :=
  match first_missing required_fields data with
  | Some field => (false, "Отсутствует обязательное поле: " ++ field)
  | None =>
      if negb (Py.isinstance_str (data !!! "bssid"))
         || Py.len_is_zero (data !!! "bssid")
      then (false, "BSSID должен быть непустой строкой")
      else if negb (Py.isinstance_str (data !!! "ssid"))
      then (false, "SSID должен быть строкой")
      else if negb (Py.isinstance_int_float (data !!! "frequency"))
              || Py.le_zero (data !!! "frequency")
      then (false, "Frequency должен быть положительным числом")
      else if negb (Py.isinstance_int (data !!! "rssi"))
              || Py.gt_zero (data !!! "rssi")
      then (false, "RSSI должен быть целым отрицательным числом")
      else if negb (Py.isinstance_int_float (data !!! "timestamp"))
              || Py.le_zero (data !!! "timestamp")
      then (false, "Timestamp должен быть положительным числом")
      else (true, "")
  end.

(** ** Record normalizer: [_prepare_wifi_data] *)

Definition numeric_fields : list string := ["frequency"; "rssi"; "timestamp"].
Definition text_fields : list string :=
  ["ssid"; "bssid"; "channel_bandwidth"; "capabilities"].
Definition all_fields : list string :=
  ["bssid"; "frequency"; "rssi"; "ssid"; "timestamp";
   "channel_bandwidth"; "capabilities"].

Definition bssid_sentinel : string := "00:00:00:00:00:00".

(** Body of the first loop, for one key of the copy: a [None] becomes 0
    or the empty string according to the key (and stays [None] under any
    other key), an empty string under [bssid] becomes the sentinel. *)
Definition prepare_value (key : string) (v : value) : value :=
  match v with
  | VNone =>
      if Py.in_list key numeric_fields then VInt 0
      else if Py.in_list key text_fields then VStr ""
      else v
  | _ =>
      if Py.eq_str v "" then
        if Py.in_list key ["bssid"] then VStr bssid_sentinel else v
      else v
  end.

(** Body of the second loop: a missing field is added with its default. *)
Definition fill_default (prepared : gmap string value) (field : string)
  : gmap string value :=
  match prepared !! field with
  | Some _ => prepared
  | None =>
      if Py.in_list field numeric_fields
      then <[field := VInt 0]> prepared
      else <[field := VStr ""]> prepared
  end.

Definition _prepare_wifi_data (data : gmap string value) : gmap string value :=
  let prepared_data := map_imap (fun key v => Some (prepare_value key v)) data in
  foldl fill_default prepared_data all_fields.

(** ** [str.strip()]

    Without an argument [strip] removes, at both ends, every character
    for which [str.isspace] holds: U+0009-000D, U+001C-0020, U+0085,
    U+00A0, U+1680, U+2000-200A, U+2028, U+2029, U+202F, U+205F and
    U+3000.  On the UTF-8 encoding these are one, two or three bytes
    long. *)

Module Strip.

Definition byte_is (n : N) (b : ascii) : bool := (N_of_ascii b =? n)%N.

Definition byte_in (lo hi : N) (b : ascii) : bool :=
  ((lo <=? N_of_ascii b) && (N_of_ascii b <=? hi))%N.

(** U+0009-000D and U+001C-0020 *)
Definition space1 (b0 : ascii) : bool :=
  byte_in 9 13 b0 || byte_in 28 32 b0.

(** U+0085 is [C2 85], U+00A0 is [C2 A0]. *)
Definition space2 (b0 b1 : ascii) : bool :=
  byte_is 194 b0 && (byte_is 133 b1 || byte_is 160 b1).

(** U+1680 is [E1 9A 80]; U+2000-200A, U+2028, U+2029, U+202F are
    [E2 80 80]-[E2 80 8A], [E2 80 A8], [E2 80 A9], [E2 80 AF];
    U+205F is [E2 81 9F]; U+3000 is [E3 80 80]. *)
Definition space3 (b0 b1 b2 : ascii) : bool :=
  (byte_is 225 b0 && byte_is 154 b1 && byte_is 128 b2)
  || (byte_is 226 b0 && byte_is 128 b1
      && (byte_in 128 138 b2 || byte_is 168 b2 || byte_is 169 b2
          || byte_is 175 b2))
  || (byte_is 226 b0 && byte_is 129 b1 && byte_is 159 b2)
  || (byte_is 227 b0 && byte_is 128 b1 && byte_is 128 b2).

Fixpoint lstrip (s : list ascii) : list ascii :=
  match s with
  | [] => []
  | b0 :: r0 =>
      if space1 b0 then lstrip r0
      else match r0 with
           | [] => s
           | b1 :: r1 =>
               if space2 b0 b1 then lstrip r1
               else match r1 with
                    | [] => s
                    | b2 :: r2 => if space3 b0 b1 b2 then lstrip r2 else s
                    end
           end
  end.

(** The same scan from the right end, on the reversed byte list. *)
Fixpoint lstrip_rev (s : list ascii) : list ascii :=
  match s with
  | [] => []
  | b0 :: r0 =>
      if space1 b0 then lstrip_rev r0
      else match r0 with
           | [] => s
           | b1 :: r1 =>
               if space2 b1 b0 then lstrip_rev r1
               else match r1 with
                    | [] => s
                    | b2 :: r2 =>
                        if space3 b2 b1 b0 then lstrip_rev r2 else s
                    end
           end
  end.

Definition rstrip (s : list ascii) : list ascii := rev (lstrip_rev (rev s)).

Definition strip (s : string) : string :=
  string_of_list_ascii (rstrip (lstrip (list_ascii_of_string s))).

End Strip.

(** ** Example-payload detector: [_is_example_payload]

    The nested function is defined twice, in [_process_json_file_content]
    and in the first [handle_text_or_file], with the same body. *)

Definition _is_example_payload (obj : value) : bool :=
  match obj with
  | VDict d =>
      let bssid := default (VStr "") (d !! "bssid") in
      if match bssid with
         | VStr s => String.eqb (Strip.strip s) "00:11:22:33:44:55"
         | _ => false
         end
      then true
      else if Py.eq_str (default VNone (d !! "ssid")) "MyWiFi" then true
      else false
  | _ => false
  end.

(** ** Effects

    What the handlers do to the outside world is kept as a trace of
    events, oldest first. *)

(** The texts passed to [message.answer]. *)
Inductive answer : Type :=
| AnsNoRecords
| AnsStart (total_count : nat)
| AnsResult (success_count error_count total_count : nat)
| AnsParseError (e : string)
| AnsBadJson (e : string)
| AnsExample
| AnsSavedFromFile
| AnsSaved
| AnsUnsupported.

(** The lines written through [logger]. *)
Inductive log_line : Type :=
| LogBadFormat (i : nat)
| LogRecordError (i : nat)
| LogWifiRecordError
| LogIncoming.

Inductive event (Network : Type) : Type :=
| EvAnswer (a : answer)
| EvLog (l : log_line)
| EvBuild (prepared_data : gmap string value)
| EvSave (network : Network).

Arguments EvAnswer {Network} a.
Arguments EvLog {Network} l.
Arguments EvBuild {Network} prepared_data.
Arguments EvSave {Network} network.

Definition is_storage_call {Network : Type} (ev : event Network) : bool :=
  match ev with
  | EvBuild _ | EvSave _ => true
  | _ => false
  end.

(** A raised [Exception], with its message. *)
Inductive exn : Type := Exception (msg : string).

(** A computation reads the trace so far and returns a value or a raised
    exception together with the extended trace. *)
Definition M (Network A : Type) : Type :=
  list (event Network) -> (exn + A) * list (event Network).

Definition ret {Network A : Type} (a : A) : M Network A :=
  fun tr => (inr a, tr).

Definition bind {Network A B : Type} (m : M Network A) (k : A -> M Network B)
  : M Network B :=
  fun tr =>
    match m tr with
    | (inr a, tr') => k a tr'
    | (inl e, tr') => (inl e, tr')
    end.

(** [try: body except Exception as e: handler e] *)
Definition try_except {Network A : Type} (body : M Network A)
  (handler : exn -> M Network A) : M Network A :=
  fun tr =>
    match body tr with
    | (inr a, tr') => (inr a, tr')
    | (inl e, tr') => handler e tr'
    end.

Definition emit {Network : Type} (ev : event Network) : M Network unit :=
  fun tr => (inr tt, (tr ++ [ev])%list).

Declare Scope pipeline_scope.
Delimit Scope pipeline_scope with pipeline.
Notation "'do' x <- c1 ; c2" := (bind c1 (fun x => c2))
  (at level 10, x name, c1 at level 100, c2 at level 200) : pipeline_scope.
Notation "'run' c1 ; c2" := (bind c1 (fun _ => c2))
  (at level 10, c1 at level 100, c2 at level 200) : pipeline_scope.
Open Scope pipeline_scope.

(** ** The processors and the entry points

    The storage controller ([controler.Controller]) and the JSON parser
    are collaborators outside this module.  A controller call may depend
    on everything that happened before it, so its result is a function of
    the trace so far and of its argument; it returns a value or raises. *)

Section Pipeline.

Context {Network : Type}.

(** [controller.build_network] *)
Variable build_network :
  list (event Network) -> gmap string value -> exn + Network.

(** [controller.save_network]; the result is used as a condition. *)
Variable save_network : list (event Network) -> Network -> exn + bool.

(** [json.loads]: the parsed document, or the [JSONDecodeError] text. *)
Variable json_loads : string -> string + value.

Definition call_build (prepared_data : gmap string value) : M Network Network :=
  fun tr => (build_network tr prepared_data, (tr ++ [EvBuild prepared_data])%list).

Definition call_save (network : Network) : M Network bool :=
  fun tr => (save_network tr network, (tr ++ [EvSave network])%list).

(** [message.answer] and the [logger] calls are outputs: they are
    appended to the trace and return. *)
Definition message_answer (a : answer) : M Network unit := emit (EvAnswer a).

Definition logger (l : log_line) : M Network unit := emit (EvLog l).

(** [_process_single_wifi_record].  [_validate_wifi_data] returns the
    pair [(ok, reason)] and the pair itself is what [if not is_valid]
    tests.  The dictionary [error_messages_sent] is created afresh by
    every call and never read afterwards, so it is left out. *)
Definition _process_single_wifi_record (data : gmap string value)
  : M Network bool :=
  let prepared_data := _prepare_wifi_data data in
  let is_valid := _validate_wifi_data prepared_data in
  if negb (Py.truthy_pair is_valid) then ret false
  else
    try_except
      (do network <- call_build prepared_data;
       do saved <- call_save network;
       if saved then ret true else ret false)
      (fun e => run logger LogWifiRecordError; ret false).

(** The [for] loop of [_process_multiple_wifi_records], for any
    single-record processor [single]; [i] is the 1-based position of
    the head of [records]. *)
Fixpoint records_loop (single : gmap string value -> M Network bool)
  (i : nat) (records : list value) (success_count error_count : nat)
  : M Network (nat * nat) :=
  match records with
  | [] => ret (success_count, error_count)
  | record :: rest =>
      match record with
      | VDict d =>
          do counts <-
            try_except
              (do ok <- single d;
               if ok then ret (S success_count, error_count)
               else ret (success_count, S error_count))
              (fun _ => run logger (LogRecordError i);
                        ret (success_count, S error_count));
          records_loop single (S i) rest (fst counts) (snd counts)
      | _ =>
          run logger (LogBadFormat i);
          records_loop single (S i) rest success_count (S error_count)
      end
  end.

Definition process_records_with (single : gmap string value -> M Network bool)
  (records : list value) : M Network unit :=
  match records with
  | [] => message_answer AnsNoRecords
  | _ :: _ =>
      let total_count := length records in
      run message_answer (AnsStart total_count);
      do counts <- records_loop single 1 records 0 0;
      message_answer (AnsResult (fst counts) (snd counts) total_count)
  end.

Definition _process_multiple_wifi_records (records : list value)
  : M Network unit :=
  process_records_with _process_single_wifi_record records.

(** [any(_is_example_payload(item) for item in parsed_data
         if isinstance(item, dict))] *)
Definition any_example (parsed_data : list value) : bool :=
  existsb _is_example_payload (List.filter Py.isinstance_dict parsed_data).

(** What both entry points do with the parsed document; they differ in
    the text sent after a single record is saved. *)
Definition dispatch_parsed (saved_text : answer) (parsed_data : value)
  : M Network unit :=
  match parsed_data with
  | VList items =>
      if any_example items then message_answer AnsExample
      else _process_multiple_wifi_records items
  | VDict d =>
      if _is_example_payload parsed_data then message_answer AnsExample
      else
        do success <- _process_single_wifi_record d;
        if success then message_answer saved_text else ret tt
  | _ => message_answer AnsUnsupported
  end.

Definition _process_json_file_content (content : string) : M Network unit :=
  match json_loads content with
  | inl e => message_answer (AnsParseError e)
  | inr parsed_data => dispatch_parsed AnsSavedFromFile parsed_data
  end.

(** [handle_text_or_file] as first defined (and first registered on the
    router, without a filter, so every text message reaches it);
    [text] is [message.text]. *)
Definition handle_text_or_file (text : option string) : M Network unit :=
  run logger LogIncoming;
  let payload_text := default "" text in
  match json_loads payload_text with
  | inl e => message_answer (AnsBadJson e)
  | inr parsed_data => dispatch_parsed AnsSaved parsed_data
  end.

(** The second definition of [handle_text_or_file], at the end of the
    module.  It is registered after the first one. *)
Definition handle_text_or_file_redefined (text : option string)
  : M Network unit :=
  run logger LogIncoming;
  let payload_text := default "" text in
  match json_loads payload_text with
  | inl e => message_answer (AnsBadJson e)
  | inr parsed_data =>
      match parsed_data with
      | VList items => _process_multiple_wifi_records items
      | VDict d =>
          do success <- _process_single_wifi_record d;
          if success then message_answer AnsSaved else ret tt
      | _ => message_answer AnsUnsupported
      end
  end.

End Pipeline.

(** ** Sample data

    Records and a well-behaved controller used to run the definitions on
    concrete inputs. *)

Module Sample.

Definition record (bssid ssid frequency rssi timestamp : value)
  : gmap string value :=
  <["bssid" := bssid]> (<["ssid" := ssid]> (<["frequency" := frequency]>
    (<["rssi" := rssi]> (<["timestamp" := timestamp]> ∅)))).

(** The second record of the instructions. *)
Definition office : gmap string value :=
  record (VStr "AA:BB:CC:DD:EE:FF") (VStr "OfficeNet") (VInt 5180)
         (VInt (-65)) (VInt 1698115300).

Definition cafe : gmap string value :=
  record (VStr "AA:BB:CC:DD:EE:01") (VStr "Cafe") (VInt 2437)
         (VInt (-70)) (VInt 1698115400).

Definition lobby : gmap string value :=
  record (VStr "AA:BB:CC:DD:EE:02") (VStr "Lobby") (VInt 2462)
         (VInt (-48)) (VInt 1698115500).

(** [frequency] is 0: rejected by the validator. *)
Definition zero_frequency : gmap string value :=
  record (VStr "a") (VStr "b") (VInt 0) (VInt (-1)) (VInt 1).

Definition positive_rssi : gmap string value :=
  record (VStr "a") (VStr "b") (VInt 1) (VInt 1) (VInt 1).

(** -1.5 as a binary64: -(3 * 2^51) * 2^-52. *)
Definition minus_one_and_a_half : spec_float :=
  S754_finite true 6755399441055744 (-52).

Definition float_rssi : gmap string value :=
  record (VStr "a") (VStr "b") (VInt 1) (VFloat minus_one_and_a_half) (VInt 1).

Definition booleans : gmap string value :=
  record (VStr "a") (VStr "") (VBool true) (VBool false) (VBool true).

(** [{bssid: "", ssid: null, frequency: null, rssi: null,
     timestamp: null}] *)
Definition nulls : gmap string value :=
  record (VStr "") VNone VNone VNone VNone.

Definition nulls_normalized : gmap string value :=
  <["capabilities" := VStr ""]> (<["channel_bandwidth" := VStr ""]>
    (record (VStr "00:00:00:00:00:00") (VStr "") (VInt 0) (VInt 0) (VInt 0))).

(** The first record of the instructions. *)
Definition instructions_example : gmap string value :=
  record (VStr "00:11:22:33:44:55") (VStr "MyWiFi") (VInt 2412)
         (VInt (-50)) (VInt 1698115200).

Definition poisoned_batch : list value :=
  [VDict office; VDict cafe; VDict instructions_example; VDict lobby].

(** A controller whose network object is the prepared dictionary and
    whose calls never fail. *)
Definition build_ok (tr : list (event (gmap string value)))
  (prepared_data : gmap string value) : exn + gmap string value :=
  inr prepared_data.

Definition save_ok (tr : list (event (gmap string value)))
  (network : gmap string value) : exn + bool :=
  inr true.

(** A single-record processor that raises on the record named
    [Cafe] and stores every other one. *)
Definition single_raises_on_cafe (data : gmap string value)
  : M (gmap string value) bool :=
  fun tr =>
    if Py.eq_str (default VNone (data !! "ssid")) "Cafe"
    then (inl (Exception "storage unreachable"), tr)
    else (inr true, (tr ++ [EvBuild data; EvSave data])%list).

(** A parser that knows one document, the poisoned batch. *)
Definition loads_poisoned (text : string) : string + value :=
  if String.eqb text "poisoned" then inr (VList poisoned_batch)
  else inl "Expecting value: line 1 column 1 (char 0)".

End Sample.

(** ** Counting events *)

Definition is_build {Network : Type} (ev : event Network) : bool :=
  match ev with EvBuild _ => true | _ => false end.

Definition is_save {Network : Type} (ev : event Network) : bool :=
  match ev with EvSave _ => true | _ => false end.

Definition is_answer {Network : Type} (ev : event Network) : bool :=
  match ev with EvAnswer _ => true | _ => false end.

(** The arguments of the [build_network] calls of a trace, in order. *)
Definition built {Network : Type} (tr : list (event Network))
  : list (gmap string value) :=
  omap (fun ev => match ev with EvBuild d => Some d | _ => None end) tr.

(** The elements of a batch that are objects, in order. *)
Definition objects_of (records : list value) : list (gmap string value) :=
  omap (fun record => match record with VDict d => Some d | _ => None end)
       records.

(** ** Log level names: [russian_level]

    The filter replaces the name of the record's level by its entry in
    [levels], keeps a name that has no entry, and returns the record (so
    the record is always let through). *)

Definition levels : gmap string string :=
  <["TRACE" := "ТРЕЙС"]> (<["DEBUG" := "ОТЛАДКА"]> (<["INFO" := "ИНФО"]>
    (<["SUCCESS" := "УСПЕХ"]> (<["WARNING" := "ПРЕДУПРЕЖДЕНИЕ"]>
      (<["ERROR" := "ОШИБКА"]> (<["CRITICAL" := "КРИТИЧНО"]> ∅)))))).

(** The new value of [record["level"].name]. *)
Definition russian_level (level_name : string) : string :=
  default level_name (levels !! level_name).

(** ** The table of stored records

    Texts shown to the user are measured and cut by characters, so here
    a [str] is the list of its code points. *)

Module Table.

Definition text : Type := list N.

(** An ASCII literal as a text. *)
Definition lit (s : string) : text := map N_of_ascii (list_ascii_of_string s).

(** U+2026, the character appended by [_truncate]. *)
Definition ellipsis : N := 8230%N.

Definition newline : N := 10%N.

(** [sep.join(lines)] *)
Fixpoint join (sep : text) (lines : list text) : text :=
  match lines with
  | [] => []
  | [line] => line
  | line :: rest => (line ++ sep ++ join sep rest)%list
  end.

(** [range(0, stop, step)] for a positive [step]. *)
Definition range_step (stop step : nat) : list nat :=
  map (fun k => k * step) (seq 0 ((stop + step - 1) / step)).

(** [[t[i:i+step] for i in range(0, len(t), step)]] *)
Definition split_parts {A : Type} (step : nat) (t : list A) : list (list A) :=
  map (fun i => take step (drop i t)) (range_step (length t) step).

(** The body of a code message: the part between two fence lines. *)
Definition code_block (part : text) : text :=
  (lit "```" ++ [newline] ++ part ++ [newline] ++ lit "```")%list.

(** What [show_table] sends and logs. *)
Inductive reply : Type :=
| ReplyLogCount (n : nat)
| ReplyLogFailure
| ReplyError (exc : exn)
| ReplyEmptyTable
| ReplyMarkdown (body : text) (with_keyboard : bool)
| ReplyCallbackAnswer.

Definition is_callback_answer (r : reply) : bool :=
  match r with ReplyCallbackAnswer => true | _ => false end.

Section Records.

(** The values held by the records that [controller.get_all_networks]
    returns (other than [None]), and [str] on them. *)
Variable V : Type.
Variable py_str : V -> text.

(** [_truncate]; [value] is [None] when [r.get] finds no value. *)
Definition _truncate (value : option V) (length : Z) : text :=
  match value with
  | None => []
  | Some v =>
      let s := py_str v in
      if (Z.of_nat (List.length s) <=? length)%Z then s
      else (take (Z.to_nat (Z.max 0 (length - 1))) s ++ [ellipsis])%list
  end.

Definition header : text := lit "BSSID | SSID | RSSI | FREQ | TIMESTAMP".

Definition sample_row : text :=
  lit "00:11:22:33:44:55 | MyWiFi | -50 | 2412 | 1698115200".

(** The line appended for one record. *)
Definition format_row (r : gmap string V) : text :=
  (_truncate (r !! "bssid") 17 ++ lit " | "
   ++ _truncate (r !! "ssid") 20 ++ lit " | "
   ++ _truncate (r !! "rssi") 4 ++ lit " | "
   ++ _truncate (r !! "frequency") 5 ++ lit " | "
   ++ _truncate (r !! "timestamp") 10)%list.

Definition _format_records_table (records : list (gmap string V)) : text :=
  match records with
  | [] => (header ++ [newline] ++ sample_row)%list
  | _ :: _ => join [newline] (header :: map format_row records)
  end.

(** [show_table]; [get_all_networks] is the outcome of the controller
    call, a list of records or a raised exception. *)
Definition show_table (get_all_networks : exn + list (gmap string V))
  : list reply :=
  match get_all_networks with
  | inl exc => [ReplyLogFailure; ReplyError exc; ReplyCallbackAnswer]
  | inr records =>
      ReplyLogCount (List.length records) ::
      match records with
      | [] => [ReplyEmptyTable; ReplyCallbackAnswer]
      | _ :: _ =>
          let table_text := _format_records_table records in
          if (4000 <? List.length table_text)%nat then
            (map (fun part => ReplyMarkdown (code_block part) false)
                 (split_parts 4000 table_text)
             ++ [ReplyCallbackAnswer])%list
          else [ReplyMarkdown (code_block table_text) true; ReplyCallbackAnswer]
      end
  end.

End Records.

End Table.

(** ** More sample data *)

Module Sample2.

(** Parsers that know one document each. *)
Definition loads_batch (text : string) : string + value :=
  if String.eqb text "batch" then inr (VList [VDict Sample.office; VInt 7])
  else inl "Expecting value: line 1 column 1 (char 0)".

Definition loads_object (text : string) : string + value :=
  if String.eqb text "object" then inr (VDict Sample.office)
  else inl "Expecting value: line 1 column 1 (char 0)".

(** A controller whose [save_network] reports failure. *)
Definition save_refused (tr : list (event (gmap string value)))
  (network : gmap string value) : exn + bool :=
  inr false.

End Sample2.

(** ** Sample stored records *)

Module TableSample.

(** Stored values that are texts already, so that [str] returns them. *)
Definition py_str (v : Table.text) : Table.text := v.

Definition long_name : Table.text :=
  Table.lit "A network name of more than twenty characters".

Definition net : gmap string Table.text :=
  <["bssid" := Table.lit "AA:BB:CC:DD:EE:FF"]>
    (<["ssid" := long_name]> (<["rssi" := Table.lit "-65"]> ∅)).

End TableSample.

(** * Properties *)

Open Scope list_scope.

(** ** Validator *)

Lemma first_missing_required (data : gmap string value)
  (bssid frequency rssi ssid timestamp : value) :
  data !! "bssid" = Some bssid ->
  data !! "frequency" = Some frequency ->
  data !! "rssi" = Some rssi ->
  data !! "ssid" = Some ssid ->
  data !! "timestamp" = Some timestamp ->
  first_missing required_fields data = None.
Proof.
  intros Hb Hf Hr Hs Ht. unfold required_fields. simpl.
  rewrite Hb, Hf, Hr, Hs, Ht. reflexivity.
Qed.

(** The three cases of the range-correctness property of the design. *)
Example validate_zero_frequency :
  _validate_wifi_data Sample.zero_frequency
  = (false, "Frequency должен быть положительным числом").
Proof. vm_compute. reflexivity. Qed.

Example validate_positive_rssi :
  _validate_wifi_data Sample.positive_rssi
  = (false, "RSSI должен быть целым отрицательным числом").
Proof. vm_compute. reflexivity. Qed.

Example validate_float_rssi :
  _validate_wifi_data Sample.float_rssi
  = (false, "RSSI должен быть целым отрицательным числом").
Proof. vm_compute. reflexivity. Qed.

(** C6.  The validator rejects a record as soon as one numeric field has
    the wrong type or is out of range, whatever the other fields hold:
    [frequency] or [timestamp] that is not an [int]/[float] or is [<= 0],
    [rssi] that is not an [int] (a float such as -1.5) or is [> 0].
    The type tests are Python's [isinstance], for which a [bool] is an
    [int]. *)
Theorem validate_rejects_bad_numbers (data : gmap string value) :
  (Py.isinstance_int_float (data !!! "frequency") = false
   \/ Py.le_zero (data !!! "frequency") = true)
  \/ (Py.isinstance_int (data !!! "rssi") = false
      \/ Py.gt_zero (data !!! "rssi") = true)
  \/ (Py.isinstance_int_float (data !!! "timestamp") = false
      \/ Py.le_zero (data !!! "timestamp") = true) ->
  fst (_validate_wifi_data data) = false.
Proof.
  intros Hbad. unfold _validate_wifi_data.
  destruct (first_missing required_fields data); [reflexivity |].
  destruct (negb (Py.isinstance_str (data !!! "bssid"))
            || Py.len_is_zero (data !!! "bssid")); [reflexivity |].
  destruct (negb (Py.isinstance_str (data !!! "ssid"))); [reflexivity |].
  destruct (Py.isinstance_int_float (data !!! "frequency")) eqn:Hf1;
    [| reflexivity].
  destruct (Py.le_zero (data !!! "frequency")) eqn:Hf2; [reflexivity |].
  destruct (Py.isinstance_int (data !!! "rssi")) eqn:Hr1; [| reflexivity].
  destruct (Py.gt_zero (data !!! "rssi")) eqn:Hr2; [reflexivity |].
  destruct (Py.isinstance_int_float (data !!! "timestamp")) eqn:Ht1;
    [| reflexivity].
  destruct (Py.le_zero (data !!! "timestamp")) eqn:Ht2; [reflexivity |].
  exfalso. intuition discriminate.
Qed.

Lemma validate_rejects_bad_numbers_witness :
  fst (_validate_wifi_data Sample.float_rssi) = false.
Proof.
  apply (validate_rejects_bad_numbers Sample.float_rssi).
  right. left. left. vm_compute. reflexivity.
Defined.

(** C10.  Booleans pass the numeric checks: a record with a non-empty
    string [bssid], a string [ssid], [frequency] and [timestamp] equal to
    [true] and [rssi] equal to [false] is accepted. *)
Theorem validate_accepts_booleans (data : gmap string value) (bssid ssid : string) :
  data !! "bssid" = Some (VStr bssid) ->
  bssid <> "" ->
  data !! "ssid" = Some (VStr ssid) ->
  data !! "frequency" = Some (VBool true) ->
  data !! "rssi" = Some (VBool false) ->
  data !! "timestamp" = Some (VBool true) ->
  _validate_wifi_data data = (true, "").
Proof.
  intros Hb Hne Hs Hf Hr Ht. unfold _validate_wifi_data.
  rewrite (first_missing_required data _ _ _ _ _ Hb Hf Hr Hs Ht).
  rewrite !lookup_total_alt, Hb, Hs, Hf, Hr, Ht. simpl.
  destruct bssid; [congruence | reflexivity].
Qed.

Lemma validate_accepts_booleans_witness :
  _validate_wifi_data Sample.booleans = (true, "").
Proof.
  apply (validate_accepts_booleans Sample.booleans "a" "");
    [reflexivity | discriminate | reflexivity | reflexivity | reflexivity
    | reflexivity].
Defined.

(** ** Normalizer *)

Lemma in_list_cons (k f : string) (fs : list string) :
  Py.in_list k (f :: fs) = bool_decide (k = f) || Py.in_list k fs.
Proof.
  unfold Py.in_list.
  destruct (decide (k = f)) as [->|Hne].
  - rewrite (bool_decide_eq_true_2 (f = f)) by reflexivity.
    apply bool_decide_eq_true_2. left.
  - rewrite (bool_decide_eq_false_2 (k = f)) by assumption. simpl.
    apply bool_decide_ext. split.
    + intros Hin. apply elem_of_cons in Hin. destruct Hin; [contradiction | assumption].
    + intros Hin. right. assumption.
Qed.

(** What the second loop leaves under a key: a value already there is
    kept, a listed field that is missing gets its default. *)
Lemma foldl_fill_default_lookup (fields : list string)
  (m : gmap string value) (k : string) :
  foldl fill_default m fields !! k =
    match m !! k with
    | Some v => Some v
    | None =>
        if Py.in_list k fields
        then Some (if Py.in_list k numeric_fields then VInt 0 else VStr "")
        else None
    end.
Proof.
  revert m. induction fields as [|f fs IH]; intros m; simpl.
  - destruct (m !! k); reflexivity.
  - rewrite IH, in_list_cons. unfold fill_default.
    destruct (decide (k = f)) as [->|Hne].
    + rewrite (bool_decide_eq_true_2 (f = f)) by reflexivity. simpl.
      destruct (m !! f) as [v|] eqn:Hf.
      * rewrite Hf. reflexivity.
      * destruct (Py.in_list f numeric_fields);
          rewrite lookup_insert_eq; reflexivity.
    + rewrite (bool_decide_eq_false_2 (k = f)) by assumption. simpl.
      destruct (m !! f) as [v|]; [reflexivity |].
      destruct (Py.in_list f numeric_fields);
        rewrite lookup_insert_ne by congruence; reflexivity.
Qed.

Lemma prepare_lookup (data : gmap string value) (k : string) :
  _prepare_wifi_data data !! k =
    match data !! k with
    | Some v => Some (prepare_value k v)
    | None =>
        if Py.in_list k all_fields
        then Some (if Py.in_list k numeric_fields then VInt 0 else VStr "")
        else None
    end.
Proof.
  unfold _prepare_wifi_data. rewrite foldl_fill_default_lookup.
  rewrite map_lookup_imap. destruct (data !! k); reflexivity.
Qed.

Lemma in_list_bssid (k : string) :
  Py.in_list k ["bssid"] = bool_decide (k = "bssid").
Proof. rewrite in_list_cons. unfold Py.in_list. simpl. apply orb_false_r. Qed.

(** A second pass changes nothing under a key, except under [bssid]
    when the value was [None]. *)
Lemma prepare_value_idempotent (k : string) (v : value) :
  (k = "bssid" -> v <> VNone) ->
  prepare_value k (prepare_value k v) = prepare_value k v.
Proof.
  intros Hk. destruct v as [| b | z | f | s | l | d]; simpl; try reflexivity.
  - destruct (Py.in_list k numeric_fields) eqn:Hnum; [reflexivity |].
    destruct (Py.in_list k text_fields) eqn:Htxt; simpl.
    + rewrite in_list_bssid. rewrite bool_decide_eq_false_2; [reflexivity |].
      intros ->. apply Hk; reflexivity.
    + rewrite Hnum, Htxt. reflexivity.
  - destruct (String.eqb s "") eqn:Hs; simpl.
    + destruct (Py.in_list k ["bssid"]) eqn:Hb; simpl.
      * reflexivity.
      * rewrite Hs, Hb. reflexivity.
    + rewrite Hs. reflexivity.
Qed.

(** C7.  The candidate [{bssid: "", ssid: null, frequency: null,
    rssi: null, timestamp: null}] is normalized to exactly
    [{bssid: "00:00:00:00:00:00", ssid: "", frequency: 0, rssi: 0,
      timestamp: 0, channel_bandwidth: "", capabilities: ""}]. *)
Theorem prepare_nulls_defaulting :
  _prepare_wifi_data
    (<["bssid" := VStr ""]> (<["ssid" := VNone]> (<["frequency" := VNone]>
       (<["rssi" := VNone]> (<["timestamp" := VNone]> ∅)))))
  = <["bssid" := VStr "00:00:00:00:00:00"]> (<["ssid" := VStr ""]>
      (<["frequency" := VInt 0]> (<["rssi" := VInt 0]>
         (<["timestamp" := VInt 0]> (<["channel_bandwidth" := VStr ""]>
            (<["capabilities" := VStr ""]> ∅)))))).
Proof. vm_compute. reflexivity. Qed.

(** Normalizing twice gives the same record as normalizing once for
    every candidate whose [bssid] is present and is not null. *)
Lemma prepare_idempotent_with_bssid (data : gmap string value) (bssid : value) :
  data !! "bssid" = Some bssid ->
  bssid <> VNone ->
  _prepare_wifi_data (_prepare_wifi_data data) = _prepare_wifi_data data.
Proof.
  intros Hb Hnn. apply map_eq. intros k.
  rewrite (prepare_lookup (_prepare_wifi_data data)), (prepare_lookup data).
  destruct (data !! k) as [v|] eqn:Hk.
  - f_equal. apply prepare_value_idempotent.
    intros ->. rewrite Hb in Hk. congruence.
  - destruct (Py.in_list k all_fields); [| reflexivity].
    f_equal. destruct (Py.in_list k numeric_fields); [reflexivity |].
    simpl. rewrite in_list_bssid, bool_decide_eq_false_2; [reflexivity |].
    intros ->. rewrite Hb in Hk. discriminate.
Qed.

Lemma prepare_idempotent_with_bssid_witness :
  _prepare_wifi_data (_prepare_wifi_data Sample.nulls)
  = _prepare_wifi_data Sample.nulls.
Proof.
  apply (prepare_idempotent_with_bssid Sample.nulls (VStr ""));
    [reflexivity | discriminate].
Defined.

(** C3, as the code has it.  Normalization is idempotent exactly on the
    candidates that carry a non-null [bssid]: for every candidate,
    normalizing twice gives the same record as normalizing once if and
    only if [bssid] is present and not null.  For every candidate whose
    [bssid] is absent or null, the record normalized once has the empty
    string under [bssid] and the record normalized twice has
    [00:00:00:00:00:00] there. *)
Theorem prepare_idempotent_iff_bssid (data : gmap string value) :
  (_prepare_wifi_data (_prepare_wifi_data data) = _prepare_wifi_data data
   <-> exists bssid : value, data !! "bssid" = Some bssid /\ bssid <> VNone)
  /\ (data !! "bssid" = None \/ data !! "bssid" = Some VNone ->
      _prepare_wifi_data data !! "bssid" = Some (VStr "")
      /\ _prepare_wifi_data (_prepare_wifi_data data) !! "bssid"
         = Some (VStr "00:00:00:00:00:00")).
Proof.
  assert (Hodd : data !! "bssid" = None \/ data !! "bssid" = Some VNone ->
                 _prepare_wifi_data data !! "bssid" = Some (VStr "")
                 /\ _prepare_wifi_data (_prepare_wifi_data data) !! "bssid"
                    = Some (VStr "00:00:00:00:00:00")).
  { intros Hb.
    assert (Hone : _prepare_wifi_data data !! "bssid" = Some (VStr "")).
    { rewrite prepare_lookup. destruct Hb as [-> | ->]; reflexivity. }
    split; [exact Hone |].
    rewrite prepare_lookup, Hone. reflexivity. }
  split; [| exact Hodd].
  split.
  - intros Hidem.
    destruct (data !! "bssid") as [bssid|] eqn:Hb.
    + exists bssid. split; [reflexivity |]. intros ->.
      destruct Hodd as [Hone Htwo]; [right; reflexivity |].
      rewrite Hidem, Hone in Htwo. discriminate.
    + destruct Hodd as [Hone Htwo]; [left; reflexivity |].
      rewrite Hidem, Hone in Htwo. discriminate.
  - intros (bssid & Hb & Hnn).
    apply (prepare_idempotent_with_bssid data bssid Hb Hnn).
Qed.

Lemma prepare_idempotent_iff_bssid_witness :
  _prepare_wifi_data (_prepare_wifi_data Sample.office)
  = _prepare_wifi_data Sample.office
  /\ (_prepare_wifi_data (delete "bssid" Sample.office) !! "bssid"
      = Some (VStr "")
      /\ _prepare_wifi_data (_prepare_wifi_data (delete "bssid" Sample.office))
         !! "bssid"
         = Some (VStr "00:00:00:00:00:00")).
Proof.
  split.
  - apply (proj1 (prepare_idempotent_iff_bssid Sample.office)).
    exists (VStr "AA:BB:CC:DD:EE:FF"). split; [reflexivity | discriminate].
  - apply (proj2 (prepare_idempotent_iff_bssid (delete "bssid" Sample.office))).
    left. reflexivity.
Defined.

(** C3 fails as stated.  When [bssid] is absent or null the first pass
    makes it the empty string, and the second pass turns that empty
    string into the sentinel. *)
Lemma prepare_not_idempotent_without_bssid :
  (_prepare_wifi_data ∅ !! "bssid" = Some (VStr "")
   /\ _prepare_wifi_data (_prepare_wifi_data ∅) !! "bssid"
      = Some (VStr "00:00:00:00:00:00")
   /\ _prepare_wifi_data (_prepare_wifi_data ∅) <> _prepare_wifi_data ∅)
  /\ (_prepare_wifi_data {["bssid" := VNone]} !! "bssid" = Some (VStr "")
      /\ _prepare_wifi_data (_prepare_wifi_data {["bssid" := VNone]}) !! "bssid"
         = Some (VStr "00:00:00:00:00:00")
      /\ _prepare_wifi_data (_prepare_wifi_data {["bssid" := VNone]})
         <> _prepare_wifi_data {["bssid" := VNone]}).
Proof.
  repeat split; try (vm_compute; reflexivity).
  - intros Heq. apply (f_equal (fun m => m !! "bssid")) in Heq.
    vm_compute in Heq. discriminate.
  - intros Heq. apply (f_equal (fun m => m !! "bssid")) in Heq.
    vm_compute in Heq. discriminate.
Qed.

(** ** Example-payload detector *)

Example strip_example :
  Strip.strip "  00:11:22:33:44:55 " = "00:11:22:33:44:55".
Proof. vm_compute. reflexivity. Qed.

Example is_example_instructions :
  _is_example_payload (VDict Sample.instructions_example) = true
  /\ _is_example_payload (VDict Sample.office) = false.
Proof. split; vm_compute; reflexivity. Qed.

(** C4 fails as stated: a number is not an object and the detector
    answers false on it, as it does on a string, a list and null. *)
Lemma is_example_non_object_false :
  Py.isinstance_dict (VInt 42) = false
  /\ _is_example_payload (VInt 42) <> true
  /\ _is_example_payload (VStr "MyWiFi") <> true
  /\ _is_example_payload (VList [VDict Sample.instructions_example]) <> true
  /\ _is_example_payload VNone <> true.
Proof. repeat split; vm_compute; discriminate. Qed.

(** C4, as the code has it.  The detector answers true exactly on an
    object whose [bssid] is a string that equals [00:11:22:33:44:55] once
    trimmed, or whose [ssid] equals [MyWiFi]; on every input that is not
    an object it answers false. *)
Theorem is_example_payload_iff (obj : value) :
  _is_example_payload obj = true <->
  exists d : gmap string value,
    obj = VDict d
    /\ ((exists s, d !! "bssid" = Some (VStr s)
                   /\ Strip.strip s = "00:11:22:33:44:55")
        \/ d !! "ssid" = Some (VStr "MyWiFi")).
Proof.
  split.
  - destruct obj as [| b | z | f | s | l | d]; simpl; try discriminate.
    intros H. exists d. split; [reflexivity |].
    destruct (d !! "bssid") as [[| b | z | f | s | l | d']|] eqn:Hb; simpl in H;
      try (right; destruct (d !! "ssid") as [[| ? | ? | ? | s' | ? | ?]|];
           simpl in H; try discriminate;
           destruct (String.eqb s' "MyWiFi") eqn:Hs; [| discriminate];
           apply String.eqb_eq in Hs; subst; reflexivity).
    destruct (String.eqb (Strip.strip s) "00:11:22:33:44:55") eqn:He.
    + left. exists s. split; [reflexivity |]. apply String.eqb_eq. exact He.
    + right. destruct (d !! "ssid") as [[| ? | ? | ? | s' | ? | ?]|];
        simpl in H; try discriminate.
      destruct (String.eqb s' "MyWiFi") eqn:Hs; [| discriminate].
      apply String.eqb_eq in Hs. subst. reflexivity.
  - intros (d & -> & [(s & Hb & Hs) | Hs]); simpl.
    + rewrite Hb. simpl. rewrite Hs. reflexivity.
    + rewrite Hs. simpl.
      destruct (match default (VStr "") (d !! "bssid") with
                | VStr s => String.eqb (Strip.strip s) "00:11:22:33:44:55"
                | _ => false
                end); reflexivity.
Qed.

(** ** Single-record and batch processors *)

Section PipelineFacts.

Context {Network : Type}.
Variable build_network :
  list (event Network) -> gmap string value -> exn + Network.
Variable save_network : list (event Network) -> Network -> exn + bool.
Variable json_loads : string -> string + value.

(** The single-record processor never raises, and it calls
    [build_network] on the prepared record whether or not that record
    passes the validator. *)
Lemma single_record_always_builds (data : gmap string value)
  (tr : list (event Network)) :
  exists (r : bool) (tr' : list (event Network)),
    _process_single_wifi_record build_network save_network data tr
    = (inr r, tr ++ EvBuild (_prepare_wifi_data data) :: tr').
Proof.
  unfold _process_single_wifi_record, Py.truthy_pair. simpl.
  unfold try_except, bind, call_build, call_save, logger, emit, ret.
  destruct (build_network tr (_prepare_wifi_data data)) as [ex | network].
  - eexists false, _. rewrite <- app_assoc. reflexivity.
  - destruct (save_network _ network) as [ex | [|]].
    + eexists false, _. rewrite <- !app_assoc. reflexivity.
    + eexists true, _. rewrite <- !app_assoc. reflexivity.
    + eexists false, _. rewrite <- !app_assoc. reflexivity.
Qed.

Section Loop.

Variable single : gmap string value -> M Network bool.

(** The loop always runs to the end of the batch, and each element
    adds one to exactly one of the two counters. *)
Lemma records_loop_total (records : list value) (i s e : nat)
  (tr : list (event Network)) :
  exists (s' e' : nat) (tr' : list (event Network)),
    records_loop single i records s e tr = (inr (s', e'), tr')
    /\ s' + e' = s + e + length records.
Proof.
  revert i s e tr.
  induction records as [|x rest IH]; intros i s e tr; simpl.
  - exists s, e, tr. split; [reflexivity | lia].
  - destruct x as [| b | z | f | str | l | d];
      try (unfold bind at 1; unfold logger, emit;
           destruct (IH (S i) s (S e) (tr ++ [EvLog (LogBadFormat i)]))
             as (s' & e' & tr' & Hrun & Hsum);
           exists s', e', tr'; split; [exact Hrun | lia]).
    unfold bind at 1. unfold try_except, bind at 1.
    destruct (single d tr) as [[ex | [|]] tr1]; simpl.
    + destruct (IH (S i) s (S e) (tr1 ++ [EvLog (LogRecordError i)]))
        as (s' & e' & tr' & Hrun & Hsum).
      exists s', e', tr'. split; [exact Hrun | lia].
    + destruct (IH (S i) (S s) e tr1) as (s' & e' & tr' & Hrun & Hsum).
      exists s', e', tr'. split; [exact Hrun | lia].
    + destruct (IH (S i) s (S e) tr1) as (s' & e' & tr' & Hrun & Hsum).
      exists s', e', tr'. split; [exact Hrun | lia].
Qed.

(** Running the loop over [before ++ after] is running it over
    [before] and then, from the counters and the trace reached, over
    [after]. *)
Lemma records_loop_app (before after : list value) (i s e : nat)
  (tr : list (event Network)) (s1 e1 : nat) (tr1 : list (event Network)) :
  records_loop single i before s e tr = (inr (s1, e1), tr1) ->
  records_loop single i (before ++ after) s e tr
  = records_loop single (i + length before) after s1 e1 tr1.
Proof.
  revert i s e tr.
  induction before as [|x rest IH]; intros i s e tr Hrun; simpl in *.
  - injection Hrun as -> -> ->. rewrite Nat.add_0_r. reflexivity.
  - replace (i + S (length rest)) with (S i + length rest) by lia.
    destruct x as [| b | z | f | str | l | d];
      try (unfold bind at 1 in Hrun; unfold bind at 1;
           unfold logger, emit in *; apply IH; exact Hrun).
    unfold bind at 1 in Hrun. unfold bind at 1.
    destruct (try_except _ _ tr) as [[ex | counts] tr2];
      [discriminate |].
    apply IH. exact Hrun.
Qed.

Lemma process_records_with_run (records : list value)
  (tr : list (event Network)) (s e : nat) (tr' : list (event Network)) :
  records <> [] ->
  records_loop single 1 records 0 0
    (tr ++ [EvAnswer (AnsStart (length records))])
  = (inr (s, e), tr') ->
  process_records_with single records tr
  = (inr tt, tr' ++ [EvAnswer (AnsResult s e (length records))]).
Proof.
  intros Hne Hrun. destruct records as [|x rest]; [congruence |].
  unfold process_records_with, message_answer.
  unfold bind at 1. unfold emit at 1. unfold bind at 1.
  rewrite Hrun. reflexivity.
Qed.

Lemma process_records_with_total (records : list value)
  (tr : list (event Network)) :
  records <> [] ->
  exists (s e : nat) (tr' : list (event Network)),
    process_records_with single records tr
    = (inr tt, tr' ++ [EvAnswer (AnsResult s e (length records))])
    /\ s + e = length records.
Proof.
  intros Hne.
  destruct (records_loop_total records 1 0 0
              (tr ++ [EvAnswer (AnsStart (length records))]))
    as (s & e & tr' & Hrun & Hsum).
  exists s, e, tr'. split; [| lia].
  apply process_records_with_run; assumption.
Qed.

(** C8.  A failing element never aborts the batch.  Let the loop of the
    batch [before ++ x :: after] have reached [x] with counters
    [(s1, e1)] and trace [tr1].  When [x] is not an object it is logged
    and counted as one error and the single-record processor is not run
    on it (the trace only gains the log line); when [x] is an object on
    which the single-record processor raises, the exception is caught,
    logged and counted as one error.  In both cases the loop goes on
    with [after] from the counters [(s1, e1 + 1)], it comes to its end,
    and the batch processor returns normally with a summary in which
    every element is counted. *)
Theorem batch_survives_failing_element (before after : list value)
  (x : value) (tr tr1 tr2 : list (event Network)) (s1 e1 : nat) :
  records_loop single 1 before 0 0
    (tr ++ [EvAnswer (AnsStart (length (before ++ x :: after)))])
  = (inr (s1, e1), tr1) ->
  (Py.isinstance_dict x = false
   /\ tr2 = tr1 ++ [EvLog (LogBadFormat (S (length before)))])
  \/ (exists (d : gmap string value) (ex : exn) (tr' : list (event Network)),
        x = VDict d
        /\ single d tr1 = (inl ex, tr')
        /\ tr2 = tr' ++ [EvLog (LogRecordError (S (length before)))]) ->
  records_loop single 1 (before ++ x :: after) 0 0
    (tr ++ [EvAnswer (AnsStart (length (before ++ x :: after)))])
  = records_loop single (S (S (length before))) after s1 (S e1) tr2
  /\ exists (s e : nat) (tr' : list (event Network)),
       records_loop single (S (S (length before))) after s1 (S e1) tr2
       = (inr (s, e), tr')
       /\ process_records_with single (before ++ x :: after) tr
          = (inr tt,
             tr' ++ [EvAnswer (AnsResult s e (length (before ++ x :: after)))])
       /\ s + e = length (before ++ x :: after).
Proof.
  intros Hbefore Hfail.
  assert (Hstep :
    records_loop single 1 (before ++ x :: after) 0 0
      (tr ++ [EvAnswer (AnsStart (length (before ++ x :: after)))])
    = records_loop single (S (S (length before))) after s1 (S e1) tr2).
  { rewrite (records_loop_app before (x :: after) 1 0 0 _ s1 e1 tr1 Hbefore).
    simpl.
    destruct Hfail as [[Hx ->] | (d & ex & tr' & -> & Hraise & ->)].
    - destruct x; try discriminate; reflexivity.
    - unfold bind at 1. unfold try_except, bind at 1.
      rewrite Hraise. reflexivity. }
  split; [exact Hstep |].
  destruct (records_loop_total before 1 0 0
              (tr ++ [EvAnswer (AnsStart (length (before ++ x :: after)))]))
    as (a & b & t & Hrun1 & Hsum1).
  rewrite Hbefore in Hrun1. injection Hrun1 as <- <- <-.
  destruct (records_loop_total after (S (S (length before))) s1 (S e1) tr2)
    as (s & e & tr' & Hrun & Hsum).
  exists s, e, tr'. split; [exact Hrun |]. split.
  - apply process_records_with_run.
    + destruct before; discriminate.
    + rewrite Hstep. exact Hrun.
  - rewrite length_app. simpl. lia.
Qed.

End Loop.

(** C9.  When the batch processor is done with a non-empty batch, the
    summary it sends carries counters with
    [success_count + error_count = total_count = len(records)]. *)
Theorem batch_counters_conserved (records : list value)
  (tr : list (event Network)) :
  records <> [] ->
  exists (success_count error_count : nat) (tr' : list (event Network)),
    _process_multiple_wifi_records build_network save_network records tr
    = (inr tt,
       tr' ++ [EvAnswer (AnsResult success_count error_count (length records))])
    /\ success_count + error_count = length records.
Proof.
  intros Hne. unfold _process_multiple_wifi_records.
  apply process_records_with_total. exact Hne.
Qed.

Lemma any_example_true (items : list value) :
  any_example items = true <->
  exists item, In item items
               /\ Py.isinstance_dict item = true
               /\ _is_example_payload item = true.
Proof.
  unfold any_example. rewrite existsb_exists. split.
  - intros (item & Hin & Hex). apply filter_In in Hin.
    destruct Hin as [Hin Hd]. exists item. auto.
  - intros (item & Hin & Hd & Hex). exists item.
    split; [apply filter_In; auto | exact Hex].
Qed.

(** C5.  When a batch holds at least one object that the detector
    flags, both entry points answer with the example warning and stop:
    the batch processor is not started, so the trace gains no storage
    call (and nothing else but the warning and the log line of the
    text handler). *)
Theorem example_in_batch_rejects_submission (text : option string)
  (content : string) (items : list value) (tr : list (event Network)) :
  json_loads (default "" text) = inr (VList items) ->
  json_loads content = inr (VList items) ->
  (exists item, In item items
                /\ Py.isinstance_dict item = true
                /\ _is_example_payload item = true) ->
  (handle_text_or_file build_network save_network json_loads text tr
   = (inr tt, tr ++ [EvLog LogIncoming; EvAnswer AnsExample])
   /\ _process_json_file_content build_network save_network json_loads
        content tr
      = (inr tt, tr ++ [EvAnswer AnsExample]))
  /\ (List.filter is_storage_call
        (snd (handle_text_or_file build_network save_network json_loads
                text tr))
      = List.filter is_storage_call tr
      /\ List.filter is_storage_call
           (snd (_process_json_file_content build_network save_network
                   json_loads content tr))
         = List.filter is_storage_call tr).
Proof.
  intros Htext Hcontent Hex. apply any_example_true in Hex.
  assert (Hh : handle_text_or_file build_network save_network json_loads
                 text tr
               = (inr tt, tr ++ [EvLog LogIncoming; EvAnswer AnsExample])).
  { unfold handle_text_or_file, bind, logger, emit.
    rewrite Htext. simpl. rewrite Hex.
    unfold message_answer, emit. rewrite <- app_assoc. reflexivity. }
  assert (Hf : _process_json_file_content build_network save_network
                 json_loads content tr
               = (inr tt, tr ++ [EvAnswer AnsExample])).
  { unfold _process_json_file_content. rewrite Hcontent. simpl.
    rewrite Hex. reflexivity. }
  split; [split; assumption |].
  rewrite Hh, Hf. simpl. rewrite !List.filter_app. simpl.
  rewrite !app_nil_r. split; reflexivity.
Qed.

End PipelineFacts.

(** ** The processors on concrete batches *)

Lemma batch_survives_failing_element_witness :
  records_loop Sample.single_raises_on_cafe 1
    ([VDict Sample.office] ++ VDict Sample.cafe :: [VInt 7; VDict Sample.lobby])
    0 0 ([] ++ [EvAnswer (AnsStart 4)])
  = records_loop Sample.single_raises_on_cafe 3 [VInt 7; VDict Sample.lobby] 1 1
      [EvAnswer (AnsStart 4); EvBuild Sample.office; EvSave Sample.office;
       EvLog (LogRecordError 2)]
  /\ exists (s e : nat) (tr' : list (event (gmap string value))),
       records_loop Sample.single_raises_on_cafe 3
         [VInt 7; VDict Sample.lobby] 1 1
         [EvAnswer (AnsStart 4); EvBuild Sample.office; EvSave Sample.office;
          EvLog (LogRecordError 2)]
       = (inr (s, e), tr')
       /\ process_records_with Sample.single_raises_on_cafe
            ([VDict Sample.office] ++ VDict Sample.cafe
               :: [VInt 7; VDict Sample.lobby]) []
          = (inr tt, tr' ++ [EvAnswer (AnsResult s e 4)])
       /\ s + e = 4.
Proof.
  apply (batch_survives_failing_element Sample.single_raises_on_cafe
           [VDict Sample.office] [VInt 7; VDict Sample.lobby]
           (VDict Sample.cafe) []
           [EvAnswer (AnsStart 4); EvBuild Sample.office; EvSave Sample.office]
           [EvAnswer (AnsStart 4); EvBuild Sample.office; EvSave Sample.office;
            EvLog (LogRecordError 2)]
           1 0).
  - vm_compute. reflexivity.
  - right.
    exists Sample.cafe, (Exception "storage unreachable"),
      [EvAnswer (AnsStart 4); EvBuild Sample.office; EvSave Sample.office].
    repeat split; vm_compute; reflexivity.
Defined.

(** The run of the batch above: the record that raises and the number
    are two errors, the records around them are stored. *)
Example batch_with_failures_outcome :
  process_records_with Sample.single_raises_on_cafe
    [VDict Sample.office; VDict Sample.cafe; VInt 7; VDict Sample.lobby] []
  = (inr tt,
     [EvAnswer (AnsStart 4);
      EvBuild Sample.office; EvSave Sample.office; EvLog (LogRecordError 2);
      EvLog (LogBadFormat 3); EvBuild Sample.lobby; EvSave Sample.lobby;
      EvAnswer (AnsResult 2 2 4)]).
Proof. vm_compute. reflexivity. Qed.

Lemma batch_counters_conserved_witness :
  exists (success_count error_count : nat)
         (tr' : list (event (gmap string value))),
    _process_multiple_wifi_records Sample.build_ok Sample.save_ok
      [VDict Sample.office; VInt 7; VDict Sample.cafe] []
    = (inr tt,
       tr' ++ [EvAnswer (AnsResult success_count error_count
                           (length [VDict Sample.office; VInt 7;
                                    VDict Sample.cafe]))])
    /\ success_count + error_count
       = length [VDict Sample.office; VInt 7; VDict Sample.cafe].
Proof.
  apply (batch_counters_conserved Sample.build_ok Sample.save_ok
           [VDict Sample.office; VInt 7; VDict Sample.cafe] []).
  discriminate.
Defined.

Lemma example_in_batch_rejects_submission_witness :
  (handle_text_or_file Sample.build_ok Sample.save_ok Sample.loads_poisoned
     (Some "poisoned") []
   = (inr tt, [] ++ [EvLog LogIncoming; EvAnswer AnsExample])
   /\ _process_json_file_content Sample.build_ok Sample.save_ok
        Sample.loads_poisoned "poisoned" []
      = (inr tt, [] ++ [EvAnswer AnsExample]))
  /\ (List.filter is_storage_call
        (snd (handle_text_or_file Sample.build_ok Sample.save_ok
                Sample.loads_poisoned (Some "poisoned") []))
      = List.filter is_storage_call []
      /\ List.filter is_storage_call
           (snd (_process_json_file_content Sample.build_ok Sample.save_ok
                   Sample.loads_poisoned "poisoned" []))
         = List.filter is_storage_call []).
Proof.
  apply (example_in_batch_rejects_submission Sample.build_ok Sample.save_ok
           Sample.loads_poisoned (Some "poisoned") "poisoned"
           Sample.poisoned_batch []).
  - reflexivity.
  - reflexivity.
  - exists (VDict Sample.instructions_example).
    split; [simpl; auto | split; vm_compute; reflexivity].
Defined.

(** The later definition of [handle_text_or_file] has no detector gate:
    run on the same document it would store all four records.  The
    router tries handlers in registration order and the first definition
    accepts every message, so this one is not reached. *)
Remark redefined_handler_has_no_gate :
  length (List.filter is_storage_call
            (snd (handle_text_or_file_redefined Sample.build_ok Sample.save_ok
                    Sample.loads_poisoned (Some "poisoned") [])))
  = 8.
Proof. vm_compute. reflexivity. Qed.

(** C1 (the code departs from it).  The record with [frequency] 0 fails
    the validator once normalized, and the single-record processor still
    calls [build_network] and [save_network] on it and returns true: the
    validator's result is a pair, and [if not is_valid] tests the pair,
    which is never false. *)
Theorem invalid_record_reaches_storage :
  fst (_validate_wifi_data (_prepare_wifi_data Sample.zero_frequency)) = false
  /\ _process_single_wifi_record Sample.build_ok Sample.save_ok
       Sample.zero_frequency []
     = (inr true,
        [EvBuild (_prepare_wifi_data Sample.zero_frequency);
         EvSave (_prepare_wifi_data Sample.zero_frequency)]).
Proof. split; vm_compute; reflexivity. Qed.

(** C2 (the code departs from it).  On the batch [valid, invalid, valid],
    with a storage that never fails, the summary is 3 successes and 0
    errors out of 3: the invalid record is stored like the others. *)
Theorem batch_counts_invalid_record_as_success :
  (fst (_validate_wifi_data (_prepare_wifi_data Sample.office)) = true
   /\ fst (_validate_wifi_data (_prepare_wifi_data Sample.zero_frequency)) = false
   /\ fst (_validate_wifi_data (_prepare_wifi_data Sample.cafe)) = true)
  /\ fst (_process_multiple_wifi_records Sample.build_ok Sample.save_ok
            [VDict Sample.office; VDict Sample.zero_frequency; VDict Sample.cafe]
            [])
     = inr tt
  /\ last (snd (_process_multiple_wifi_records Sample.build_ok Sample.save_ok
                  [VDict Sample.office; VDict Sample.zero_frequency;
                   VDict Sample.cafe] []))
     = Some (EvAnswer (AnsResult 3 0 3)).
Proof. repeat split; vm_compute; reflexivity. Qed.

(** * Further properties of the handlers *)

(** ** Validator: acceptance and reasons *)

Lemma first_missing_some (fields : list string) (data : gmap string value)
  (field : string) :
  first_missing fields data = Some field <->
  exists before after : list string,
    fields = before ++ field :: after
    /\ data !! field = None
    /\ Forall (fun f => is_Some (data !! f)) before.
Proof.
  induction fields as [|f fs IH]; simpl.
  - split; [discriminate |]. intros (before & after & Heq & _).
    destruct before; discriminate.
  - destruct (data !! f) as [v|] eqn:Hf.
    + rewrite IH. split.
      * intros (before & after & -> & Hnone & Hall).
        exists (f :: before), after. repeat split; [exact Hnone |].
        constructor; [rewrite Hf; eauto | exact Hall].
      * intros (before & after & Heq & Hnone & Hall).
        destruct before as [|b before]; simpl in Heq;
          injection Heq as <- ->.
        -- rewrite Hf in Hnone. discriminate.
        -- exists before, after. inversion Hall; subst. auto.
    + split.
      * intros [= <-]. exists [], fs. repeat split; [exact Hf | constructor].
      * intros (before & after & Heq & Hnone & Hall).
        destruct before as [|b before]; simpl in Heq;
          injection Heq as <- ->; [reflexivity |].
        inversion Hall as [|? ? [? Hs] _]; subst. congruence.
Qed.

Lemma first_missing_present (fields : list string)
  (data : gmap string value) :
  (forall f, f ∈ fields -> is_Some (data !! f)) ->
  first_missing fields data = None.
Proof.
  induction fields as [|f fs IH]; intros Hall; simpl; [reflexivity |].
  destruct (Hall f) as [v Hv]; [left |]. rewrite Hv.
  apply IH. intros g Hg. apply Hall. right. exact Hg.
Qed.

Lemma first_missing_absent (fields : list string)
  (data : gmap string value) (field : string) :
  field ∈ fields -> data !! field = None ->
  exists missing, first_missing fields data = Some missing.
Proof.
  induction fields as [|f fs IH]; intros Hin Hnone.
  - inversion Hin.
  - simpl. destruct (data !! f) as [v|] eqn:Hf; [| eauto].
    apply IH; [| exact Hnone].
    apply elem_of_cons in Hin. destruct Hin as [-> | Hin]; [congruence | exact Hin].
Qed.

(** A record without one of the five required fields is rejected, and
    the reason names the first required field, in the order [bssid],
    [frequency], [rssi], [ssid], [timestamp], that the record lacks. *)
Theorem validate_missing_field (data : gmap string value) (field : string) :
  field ∈ required_fields ->
  data !! field = None ->
  exists (missing : string) (before after : list string),
    required_fields = before ++ missing :: after
    /\ data !! missing = None
    /\ Forall (fun f => is_Some (data !! f)) before
    /\ _validate_wifi_data data
       = (false, ("Отсутствует обязательное поле: " ++ missing)%string).
Proof.
  intros Hin Hnone.
  destruct (first_missing_absent required_fields data field Hin Hnone)
    as [missing Hm].
  destruct (proj1 (first_missing_some _ _ _) Hm)
    as (before & after & Heq & Hmiss & Hall).
  exists missing, before, after. repeat split; try assumption.
  unfold _validate_wifi_data. rewrite Hm. reflexivity.
Qed.

Lemma validate_missing_field_witness :
  exists (missing : string) (before after : list string),
    required_fields = before ++ missing :: after
    /\ ({["bssid" := VStr "a"]} : gmap string value) !! missing = None
    /\ Forall (fun f => is_Some
                 (({["bssid" := VStr "a"]} : gmap string value) !! f)) before
    /\ _validate_wifi_data {["bssid" := VStr "a"]}
       = (false, ("Отсутствует обязательное поле: " ++ missing)%string).
Proof.
  apply (validate_missing_field {["bssid" := VStr "a"]} "ssid").
  - unfold required_fields. set_solver.
  - reflexivity.
Defined.

Lemma validate_true_elim (data : gmap string value) :
  fst (_validate_wifi_data data) = true ->
  exists (bssid ssid : string) (frequency rssi timestamp : value),
    data !! "bssid" = Some (VStr bssid) /\ bssid <> ""
    /\ data !! "ssid" = Some (VStr ssid)
    /\ (data !! "frequency" = Some frequency
        /\ Py.isinstance_int_float frequency = true
        /\ Py.le_zero frequency = false)
    /\ (data !! "rssi" = Some rssi
        /\ Py.isinstance_int rssi = true
        /\ Py.gt_zero rssi = false)
    /\ (data !! "timestamp" = Some timestamp
        /\ Py.isinstance_int_float timestamp = true
        /\ Py.le_zero timestamp = false).
Proof.
  unfold _validate_wifi_data.
  destruct (first_missing required_fields data) eqn:Hm; [discriminate |].
  unfold required_fields in Hm. simpl in Hm.
  destruct (data !! "bssid") as [vb|] eqn:Hb; [| discriminate].
  destruct (data !! "frequency") as [vf|] eqn:Hf; [| discriminate].
  destruct (data !! "rssi") as [vr|] eqn:Hr; [| discriminate].
  destruct (data !! "ssid") as [vs|] eqn:Hs; [| discriminate].
  destruct (data !! "timestamp") as [vt|] eqn:Ht; [| discriminate].
  rewrite !lookup_total_alt, Hb, Hf, Hr, Hs, Ht. simpl.
  destruct vb as [| | | | bssid | |]; try discriminate.
  destruct bssid as [|c bssid]; [discriminate |]. simpl.
  destruct vs as [| | | | ssid | |]; try discriminate. simpl.
  destruct (Py.isinstance_int_float vf) eqn:Hf1; [| discriminate].
  destruct (Py.le_zero vf) eqn:Hf2; [discriminate |]. simpl.
  destruct (Py.isinstance_int vr) eqn:Hr1; [| discriminate].
  destruct (Py.gt_zero vr) eqn:Hr2; [discriminate |]. simpl.
  destruct (Py.isinstance_int_float vt) eqn:Ht1; [| discriminate].
  destruct (Py.le_zero vt) eqn:Ht2; [discriminate |]. intros _.
  exists (String c bssid), ssid, vf, vr, vt.
  repeat split; try reflexivity; try assumption. discriminate.
Qed.

Lemma validate_true_intro (data : gmap string value) (bssid ssid : string)
  (frequency rssi timestamp : value) :
  data !! "bssid" = Some (VStr bssid) -> bssid <> "" ->
  data !! "ssid" = Some (VStr ssid) ->
  data !! "frequency" = Some frequency ->
  Py.isinstance_int_float frequency = true -> Py.le_zero frequency = false ->
  data !! "rssi" = Some rssi ->
  Py.isinstance_int rssi = true -> Py.gt_zero rssi = false ->
  data !! "timestamp" = Some timestamp ->
  Py.isinstance_int_float timestamp = true -> Py.le_zero timestamp = false ->
  _validate_wifi_data data = (true, "").
Proof.
  intros Hb Hne Hs Hf Hf1 Hf2 Hr Hr1 Hr2 Ht Ht1 Ht2.
  unfold _validate_wifi_data.
  rewrite (first_missing_required data _ _ _ _ _ Hb Hf Hr Hs Ht).
  rewrite !lookup_total_alt, Hb, Hs, Hf, Hr, Ht. simpl.
  rewrite Hf1, Hf2, Hr1, Hr2, Ht1, Ht2. simpl.
  destruct bssid; [congruence | reflexivity].
Qed.

(** The validator accepts a record exactly when [bssid] is a non-empty
    string, [ssid] is a string, [frequency] and [timestamp] are
    [int]/[float] values that are not [<= 0] and [rssi] is an [int] that
    is not [> 0]. *)
Theorem validate_accepts_iff (data : gmap string value) :
  fst (_validate_wifi_data data) = true <->
  exists (bssid ssid : string) (frequency rssi timestamp : value),
    data !! "bssid" = Some (VStr bssid) /\ bssid <> ""
    /\ data !! "ssid" = Some (VStr ssid)
    /\ (data !! "frequency" = Some frequency
        /\ Py.isinstance_int_float frequency = true
        /\ Py.le_zero frequency = false)
    /\ (data !! "rssi" = Some rssi
        /\ Py.isinstance_int rssi = true
        /\ Py.gt_zero rssi = false)
    /\ (data !! "timestamp" = Some timestamp
        /\ Py.isinstance_int_float timestamp = true
        /\ Py.le_zero timestamp = false).
Proof.
  split; [apply validate_true_elim |].
  intros (bssid & ssid & vf & vr & vt & Hb & Hne & Hs
          & (Hf & Hf1 & Hf2) & (Hr & Hr1 & Hr2) & (Ht & Ht1 & Ht2)).
  rewrite (validate_true_intro data bssid ssid vf vr vt); auto.
Qed.

(** The reason returned by the validator is empty exactly when the
    record is accepted: every rejection carries a text. *)
Theorem validate_reason_empty_iff (data : gmap string value) :
  fst (_validate_wifi_data data) = true <-> snd (_validate_wifi_data data) = "".
Proof.
  unfold _validate_wifi_data.
  destruct (first_missing required_fields data);
    [simpl; split; discriminate |].
  repeat match goal with
         | |- context [if ?c then _ else _] =>
             destruct c; [simpl; split; discriminate |]
         end.
  simpl. split; reflexivity.
Qed.

(** A [frequency] or [timestamp] that is the float NaN passes the range
    test, since [NaN <= 0] is false: a record is accepted when its
    [bssid] is a non-empty string, its [ssid] a string, its [rssi] an
    [int] that is not [> 0], and each of [frequency] and [timestamp] is
    either NaN or an [int]/[float] that is not [<= 0]. *)
Theorem validate_accepts_nan (data : gmap string value) (bssid ssid : string)
  (frequency rssi timestamp : value) :
  data !! "bssid" = Some (VStr bssid) -> bssid <> "" ->
  data !! "ssid" = Some (VStr ssid) ->
  data !! "rssi" = Some rssi ->
  Py.isinstance_int rssi = true -> Py.gt_zero rssi = false ->
  data !! "frequency" = Some frequency ->
  frequency = VFloat S754_nan
  \/ (Py.isinstance_int_float frequency = true
      /\ Py.le_zero frequency = false) ->
  data !! "timestamp" = Some timestamp ->
  timestamp = VFloat S754_nan
  \/ (Py.isinstance_int_float timestamp = true
      /\ Py.le_zero timestamp = false) ->
  _validate_wifi_data data = (true, "").
Proof.
  intros Hb Hne Hs Hr Hr1 Hr2 Hf Hfv Ht Htv.
  assert (Hnan : Py.isinstance_int_float (VFloat S754_nan) = true
                 /\ Py.le_zero (VFloat S754_nan) = false)
    by (split; reflexivity).
  assert (Hf' : Py.isinstance_int_float frequency = true
                /\ Py.le_zero frequency = false)
    by (destruct Hfv as [-> | Hfv]; assumption).
  assert (Ht' : Py.isinstance_int_float timestamp = true
                /\ Py.le_zero timestamp = false)
    by (destruct Htv as [-> | Htv]; assumption).
  destruct Hf' as [Hf1 Hf2]. destruct Ht' as [Ht1 Ht2].
  apply (validate_true_intro data bssid ssid frequency rssi timestamp);
    assumption.
Qed.

(** NaN under [frequency] alone, with an integer [timestamp]. *)
Lemma validate_accepts_nan_witness :
  _validate_wifi_data
    (Sample.record (VStr "a") (VStr "b") (VFloat S754_nan) (VInt (-1))
       (VInt 1698115200))
  = (true, "").
Proof.
  apply (validate_accepts_nan _ "a" "b" (VFloat S754_nan) (VInt (-1))
           (VInt 1698115200));
    [reflexivity | discriminate | reflexivity | reflexivity | reflexivity
    | reflexivity | reflexivity | left; reflexivity | reflexivity
    | right; split; reflexivity].
Defined.

(** NaN under [timestamp] alone, and under both fields. *)
Example validate_accepts_nan_timestamp :
  _validate_wifi_data
    (Sample.record (VStr "a") (VStr "b") (VInt 2412) (VInt (-1))
       (VFloat S754_nan))
  = (true, "")
  /\ _validate_wifi_data
       (Sample.record (VStr "a") (VStr "b") (VFloat S754_nan) (VInt (-1))
          (VFloat S754_nan))
     = (true, "").
Proof. split; vm_compute; reflexivity. Qed.

(** ** Normalizer: what it adds, keeps and guarantees *)

Lemma in_list_elem (k : string) (fields : list string) :
  Py.in_list k fields = true <-> k ∈ fields.
Proof. unfold Py.in_list. apply bool_decide_eq_true. Qed.

(** The keys of the normalized record are the keys of the candidate
    together with the seven known fields: no key is dropped and no other
    key is invented. *)
Theorem prepare_dom (data : gmap string value) :
  dom (_prepare_wifi_data data) = dom data ∪ list_to_set all_fields.
Proof.
  apply set_eq. intros k.
  rewrite elem_of_union, !elem_of_dom, elem_of_list_to_set, prepare_lookup.
  destruct (data !! k) as [v|] eqn:Hk.
  - split; [left; eauto | eauto].
  - destruct (Py.in_list k all_fields) eqn:Hin.
    + apply in_list_elem in Hin. split; [auto | eauto].
    + split; [intros [? ?]; discriminate |].
      intros [[? ?] | Hk']; [discriminate |].
      apply in_list_elem in Hk'. congruence.
Qed.

(** Normalization never changes a value that is not null, except the
    empty string under [bssid]; this holds for unknown keys too. *)
Theorem prepare_keeps_value (data : gmap string value) (k : string) (v : value) :
  data !! k = Some v ->
  v <> VNone ->
  (k = "bssid" -> v <> VStr "") ->
  _prepare_wifi_data data !! k = Some v.
Proof.
  intros Hk Hnn Hb. rewrite prepare_lookup, Hk. f_equal.
  destruct v as [| b | z | f | s | l | d]; try reflexivity; [congruence |].
  simpl. destruct (String.eqb s "") eqn:Hs; [| reflexivity].
  apply String.eqb_eq in Hs. subst s.
  rewrite in_list_bssid.
  destruct (decide (k = "bssid")) as [->|Hne].
  - exfalso. apply Hb; reflexivity.
  - rewrite bool_decide_eq_false_2 by assumption. reflexivity.
Qed.

Lemma prepare_keeps_value_witness :
  _prepare_wifi_data Sample.office !! "ssid" = Some (VStr "OfficeNet").
Proof.
  apply (prepare_keeps_value Sample.office "ssid" (VStr "OfficeNet"));
    [reflexivity | discriminate | discriminate].
Defined.

Lemma required_fields_known (f : string) :
  f ∈ required_fields -> f ∈ all_fields.
Proof.
  unfold required_fields. intros H.
  repeat (apply elem_of_cons in H; destruct H as [-> | H]);
    try (apply in_list_elem; reflexivity).
  inversion H.
Qed.

Lemma prepare_value_not_none (k : string) (v : value) :
  k ∈ all_fields -> prepare_value k v <> VNone.
Proof.
  intros Hin. destruct v as [| b | z | f | s | l | d]; simpl;
    try discriminate.
  - unfold all_fields in Hin.
    repeat (apply elem_of_cons in Hin; destruct Hin as [-> | Hin]);
      try (vm_compute; discriminate).
    inversion Hin.
  - destruct (String.eqb s ""); [destruct (Py.in_list k ["bssid"]) |];
      discriminate.
Qed.

Lemma prepare_known_field (data : gmap string value) (k : string) :
  k ∈ all_fields ->
  exists v, _prepare_wifi_data data !! k = Some v /\ v <> VNone.
Proof.
  intros Hin. rewrite prepare_lookup.
  destruct (data !! k) as [v|].
  - exists (prepare_value k v). split; [reflexivity |].
    apply prepare_value_not_none. exact Hin.
  - apply in_list_elem in Hin. rewrite Hin.
    destruct (Py.in_list k numeric_fields); eexists; split;
      try reflexivity; discriminate.
Qed.

(** After normalization each of the seven known fields is present and
    none of them is null; a field the candidate lacks holds 0 when it is
    [frequency], [rssi] or [timestamp] and the empty string otherwise. *)
Theorem prepare_fields_present (data : gmap string value) (k : string) :
  k ∈ all_fields ->
  exists v,
    _prepare_wifi_data data !! k = Some v
    /\ v <> VNone
    /\ (data !! k = None ->
        v = if Py.in_list k numeric_fields then VInt 0 else VStr "").
Proof.
  intros Hin. destruct (prepare_known_field data k Hin) as (v & Hv & Hnn).
  exists v. repeat split; try assumption.
  intros Hnone. rewrite prepare_lookup, Hnone in Hv.
  apply in_list_elem in Hin. rewrite Hin in Hv. congruence.
Qed.

Lemma prepare_fields_present_witness :
  exists v,
    _prepare_wifi_data ∅ !! "capabilities" = Some v
    /\ v <> VNone
    /\ ((∅ : gmap string value) !! "capabilities" = None ->
        v = if Py.in_list "capabilities" numeric_fields then VInt 0
            else VStr "").
Proof.
  apply (prepare_fields_present ∅ "capabilities").
  apply in_list_elem. reflexivity.
Defined.

Lemma prepare_twice_lookup (data : gmap string value) (k : string) :
  (forall v, data !! k = Some v -> k = "bssid" -> v <> VNone) ->
  (data !! k = None -> k <> "bssid") ->
  _prepare_wifi_data (_prepare_wifi_data data) !! k
  = _prepare_wifi_data data !! k.
Proof.
  intros Hsome Hnone.
  rewrite (prepare_lookup (_prepare_wifi_data data)), (prepare_lookup data).
  destruct (data !! k) as [v|] eqn:Hk.
  - f_equal. apply prepare_value_idempotent. intros Hb. apply (Hsome v); auto.
  - destruct (Py.in_list k all_fields); [| reflexivity].
    f_equal. destruct (Py.in_list k numeric_fields); [reflexivity |].
    simpl. rewrite in_list_bssid, bool_decide_eq_false_2; [reflexivity |].
    apply Hnone. reflexivity.
Qed.

(** Normalization settles after two passes: a third pass changes nothing,
    whatever the candidate. *)
Theorem prepare_stable_after_two (data : gmap string value) :
  _prepare_wifi_data (_prepare_wifi_data (_prepare_wifi_data data))
  = _prepare_wifi_data (_prepare_wifi_data data).
Proof.
  apply map_eq. intros k.
  destruct (prepare_known_field data "bssid") as (vb & Hvb & Hnn);
    [apply in_list_elem; reflexivity |].
  apply prepare_twice_lookup.
  - intros v Hv ->. congruence.
  - intros Hnone ->. congruence.
Qed.

Lemma prepare_no_missing (data : gmap string value) :
  first_missing required_fields (_prepare_wifi_data data) = None.
Proof.
  apply first_missing_present. intros f Hf.
  destruct (prepare_known_field data f) as (v & Hv & _).
  - apply required_fields_known. exact Hf.
  - rewrite Hv. eauto.
Qed.

(** Once normalized, a record has the five required fields, so the
    validator never rejects it for a missing field: its reason is never
    the missing-field text. *)
Theorem prepare_has_required_fields (data : gmap string value) (field : string) :
  first_missing required_fields (_prepare_wifi_data data) = None
  /\ snd (_validate_wifi_data (_prepare_wifi_data data))
     <> ("Отсутствует обязательное поле: " ++ field)%string.
Proof.
  split; [apply prepare_no_missing |].
  unfold _validate_wifi_data. rewrite prepare_no_missing.
  repeat match goal with
         | |- context [if ?c then _ else _] =>
             destruct c; [simpl; discriminate |]
         end.
  simpl. discriminate.
Qed.

(** A candidate whose [bssid] is absent or null is still rejected after
    normalization, for its [bssid]: the default is the empty string. *)
Theorem prepare_absent_bssid_rejected (data : gmap string value) :
  data !! "bssid" = None \/ data !! "bssid" = Some VNone ->
  _validate_wifi_data (_prepare_wifi_data data)
  = (false, "BSSID должен быть непустой строкой").
Proof.
  intros Hb. unfold _validate_wifi_data.
  rewrite prepare_no_missing.
  assert (Hp : _prepare_wifi_data data !! "bssid" = Some (VStr "")).
  { rewrite prepare_lookup. destruct Hb as [-> | ->]; reflexivity. }
  rewrite lookup_total_alt, Hp. reflexivity.
Qed.

Lemma prepare_absent_bssid_rejected_witness :
  _validate_wifi_data
    (_prepare_wifi_data (delete "bssid" Sample.office))
  = (false, "BSSID должен быть непустой строкой").
Proof.
  apply (prepare_absent_bssid_rejected (delete "bssid" Sample.office)).
  left. reflexivity.
Defined.

(** A record that the validator accepts is still accepted once
    normalized, and its five required fields are unchanged. *)
Theorem prepare_keeps_valid (data : gmap string value) :
  fst (_validate_wifi_data data) = true ->
  _validate_wifi_data (_prepare_wifi_data data) = (true, "")
  /\ forall f, f ∈ required_fields ->
               _prepare_wifi_data data !! f = data !! f.
Proof.
  intros Hok. apply validate_true_elim in Hok.
  destruct Hok as (bssid & ssid & vf & vr & vt & Hb & Hne & Hs
                   & (Hf & Hf1 & Hf2) & (Hr & Hr1 & Hr2) & (Ht & Ht1 & Ht2)).
  assert (Hpb : _prepare_wifi_data data !! "bssid" = Some (VStr bssid)).
  { rewrite prepare_lookup, Hb. simpl.
    destruct bssid; [congruence | reflexivity]. }
  assert (Hps : _prepare_wifi_data data !! "ssid" = Some (VStr ssid)).
  { rewrite prepare_lookup, Hs. simpl.
    destruct (String.eqb ssid "") eqn:He; [| reflexivity].
    apply String.eqb_eq in He. subst. reflexivity. }
  assert (Hpf : _prepare_wifi_data data !! "frequency" = Some vf).
  { rewrite prepare_lookup, Hf. destruct vf; try discriminate; reflexivity. }
  assert (Hpr : _prepare_wifi_data data !! "rssi" = Some vr).
  { rewrite prepare_lookup, Hr. destruct vr; try discriminate; reflexivity. }
  assert (Hpt : _prepare_wifi_data data !! "timestamp" = Some vt).
  { rewrite prepare_lookup, Ht. destruct vt; try discriminate; reflexivity. }
  split.
  - apply (validate_true_intro _ bssid ssid vf vr vt); assumption.
  - intros f Hin. unfold required_fields in Hin.
    repeat (apply elem_of_cons in Hin; destruct Hin as [-> | Hin]);
      try congruence.
    inversion Hin.
Qed.

Lemma prepare_keeps_valid_witness :
  _validate_wifi_data (_prepare_wifi_data Sample.office) = (true, "")
  /\ forall f, f ∈ required_fields ->
               _prepare_wifi_data Sample.office !! f = Sample.office !! f.
Proof.
  apply (prepare_keeps_valid Sample.office). vm_compute. reflexivity.
Defined.

(** An empty-string [bssid] is the one defect that normalization
    repairs: a record that is accepted with some [bssid] is rejected when
    its [bssid] is the empty string, and accepted again once that record
    is normalized, [bssid] then being [00:00:00:00:00:00]. *)
Theorem prepare_repairs_empty_bssid (data : gmap string value) :
  fst (_validate_wifi_data data) = true ->
  fst (_validate_wifi_data (<["bssid" := VStr ""]> data)) = false
  /\ _validate_wifi_data (_prepare_wifi_data (<["bssid" := VStr ""]> data))
     = (true, "")
  /\ _prepare_wifi_data (<["bssid" := VStr ""]> data) !! "bssid"
     = Some (VStr "00:00:00:00:00:00").
Proof.
  intros Hok. apply validate_true_elim in Hok.
  destruct Hok as (bssid & ssid & vf & vr & vt & Hb & Hne & Hs
                   & (Hf & Hf1 & Hf2) & (Hr & Hr1 & Hr2) & (Ht & Ht1 & Ht2)).
  set (data' := <["bssid" := VStr ""]> data).
  assert (Hb' : data' !! "bssid" = Some (VStr ""))
    by apply lookup_insert_eq.
  assert (Hs' : data' !! "ssid" = Some (VStr ssid))
    by (unfold data'; rewrite lookup_insert_ne by discriminate; exact Hs).
  assert (Hf' : data' !! "frequency" = Some vf)
    by (unfold data'; rewrite lookup_insert_ne by discriminate; exact Hf).
  assert (Hr' : data' !! "rssi" = Some vr)
    by (unfold data'; rewrite lookup_insert_ne by discriminate; exact Hr).
  assert (Ht' : data' !! "timestamp" = Some vt)
    by (unfold data'; rewrite lookup_insert_ne by discriminate; exact Ht).
  assert (Hpb : _prepare_wifi_data data' !! "bssid"
                = Some (VStr "00:00:00:00:00:00")).
  { rewrite prepare_lookup, Hb'. reflexivity. }
  split; [| split; [| exact Hpb]].
  - unfold _validate_wifi_data.
    rewrite (first_missing_required data' _ _ _ _ _ Hb' Hf' Hr' Hs' Ht').
    rewrite lookup_total_alt, Hb'. reflexivity.
  - apply (validate_true_intro _ "00:00:00:00:00:00" ssid vf vr vt);
      try assumption; try discriminate.
    + rewrite prepare_lookup, Hs'. simpl.
      destruct (String.eqb ssid "") eqn:He; [| reflexivity].
      apply String.eqb_eq in He. subst. reflexivity.
    + rewrite prepare_lookup, Hf'.
      destruct vf; try discriminate; reflexivity.
    + rewrite prepare_lookup, Hr'.
      destruct vr; try discriminate; reflexivity.
    + rewrite prepare_lookup, Ht'.
      destruct vt; try discriminate; reflexivity.
Qed.

Lemma prepare_repairs_empty_bssid_witness :
  fst (_validate_wifi_data (<["bssid" := VStr ""]> Sample.office)) = false
  /\ _validate_wifi_data
       (_prepare_wifi_data (<["bssid" := VStr ""]> Sample.office))
     = (true, "")
  /\ _prepare_wifi_data (<["bssid" := VStr ""]> Sample.office) !! "bssid"
     = Some (VStr "00:00:00:00:00:00").
Proof.
  apply (prepare_repairs_empty_bssid Sample.office). vm_compute. reflexivity.
Defined.

(** ** Single-record processor: its calls to the controller *)

Section ProcessorFacts.

Context {Network : Type}.
Variable build_network :
  list (event Network) -> gmap string value -> exn + Network.
Variable save_network : list (event Network) -> Network -> exn + bool.
Variable json_loads : string -> string + value.

(** The four ways a call can go. *)
Lemma single_record_run (data : gmap string value) (tr : list (event Network)) :
  _process_single_wifi_record build_network save_network data tr
  = match build_network tr (_prepare_wifi_data data) with
    | inl _ =>
        (inr false,
         tr ++ [EvBuild (_prepare_wifi_data data); EvLog LogWifiRecordError])
    | inr network =>
        match save_network (tr ++ [EvBuild (_prepare_wifi_data data)]) network with
        | inl _ =>
            (inr false,
             tr ++ [EvBuild (_prepare_wifi_data data); EvSave network;
                    EvLog LogWifiRecordError])
        | inr saved =>
            (inr saved,
             tr ++ [EvBuild (_prepare_wifi_data data); EvSave network])
        end
    end.
Proof.
  unfold _process_single_wifi_record, Py.truthy_pair. simpl.
  unfold try_except, bind, call_build, call_save, logger, emit, ret.
  destruct (build_network tr (_prepare_wifi_data data)) as [ex | network].
  - rewrite <- app_assoc. reflexivity.
  - destruct (save_network _ network) as [ex | [|]];
      rewrite <- !app_assoc; reflexivity.
Qed.

(** The processor returns true exactly when [build_network] returned a
    network and [save_network], called on that network, returned a true
    value; the trace then gained these two calls and nothing else. *)
Theorem single_record_true_iff (data : gmap string value)
  (tr tr' : list (event Network)) :
  _process_single_wifi_record build_network save_network data tr
  = (inr true, tr')
  <-> exists network : Network,
        build_network tr (_prepare_wifi_data data) = inr network
        /\ save_network (tr ++ [EvBuild (_prepare_wifi_data data)]) network
           = inr true
        /\ tr' = tr ++ [EvBuild (_prepare_wifi_data data); EvSave network].
Proof.
  rewrite single_record_run.
  destruct (build_network tr (_prepare_wifi_data data)) as [ex | network].
  - split; [discriminate | intros (n & Hn & _); discriminate].
  - destruct (save_network _ network) as [ex | saved] eqn:Hsave.
    + split; [discriminate |].
      intros (n & [= <-] & Hs & _). congruence.
    + split.
      * intros [= -> <-]. exists network. auto.
      * intros (n & [= <-] & Hs & ->). congruence.
Qed.

(** One call makes one storage attempt and never raises: it calls
    [build_network] once, on the normalized record, calls [save_network]
    once when that returned a network and not at all when it raised, and
    sends no answer. *)
Theorem single_record_one_attempt (data : gmap string value)
  (tr : list (event Network)) :
  exists (r : bool) (added : list (event Network)),
    _process_single_wifi_record build_network save_network data tr
    = (inr r, tr ++ added)
    /\ built added = [_prepare_wifi_data data]
    /\ length (List.filter is_save added)
       = match build_network tr (_prepare_wifi_data data) with
         | inr _ => 1
         | inl _ => 0
         end
    /\ List.filter is_answer added = [].
Proof.
  rewrite single_record_run.
  destruct (build_network tr (_prepare_wifi_data data)) as [ex | network].
  - eexists _, _. split; [reflexivity |]. repeat split.
  - destruct (save_network _ network) as [ex | saved];
      (eexists _, _; split; [reflexivity |]; repeat split).
Qed.

(** ** Batch processor: what reaches the controller, and the counters *)

Lemma built_app (tr1 tr2 : list (event Network)) :
  built (tr1 ++ tr2) = built tr1 ++ built tr2.
Proof. unfold built. apply omap_app. Qed.

Lemma filter_answer_app (tr1 tr2 : list (event Network)) :
  List.filter is_answer (tr1 ++ tr2)
  = List.filter is_answer tr1 ++ List.filter is_answer tr2.
Proof. apply List.filter_app. Qed.

Lemma objects_of_length (records : list value) :
  length (objects_of records) <= length records.
Proof.
  induction records as [|x rest IH]; simpl; [lia |].
  destruct x; simpl; lia.
Qed.

Lemma single_record_effects (data : gmap string value)
  (tr : list (event Network)) :
  exists (r : bool) (added : list (event Network)),
    _process_single_wifi_record build_network save_network data tr
    = (inr r, tr ++ added)
    /\ built added = [_prepare_wifi_data data]
    /\ List.filter is_answer added = [].
Proof.
  rewrite single_record_run.
  destruct (build_network tr (_prepare_wifi_data data)) as [ex | network].
  - eexists _, _. split; [reflexivity |]. split; reflexivity.
  - destruct (save_network _ network) as [ex | saved];
      (eexists _, _; split; [reflexivity |]; split; reflexivity).
Qed.

(** The loop with the real single-record processor: the trace grows by
    events among which the [build_network] calls are those of the object
    elements, in order, and no answer is sent. *)
Lemma records_loop_built (records : list value) (i s e : nat)
  (tr : list (event Network)) :
  exists (s' e' : nat) (added : list (event Network)),
    records_loop (_process_single_wifi_record build_network save_network)
      i records s e tr
    = (inr (s', e'), tr ++ added)
    /\ built added = map _prepare_wifi_data (objects_of records)
    /\ List.filter is_answer added = []
    /\ s' <= s + length (objects_of records)
    /\ e + (length records - length (objects_of records)) <= e'
    /\ s' + e' = s + e + length records.
Proof.
  revert i s e tr.
  induction records as [|x rest IH]; intros i s e tr.
  - exists s, e, []. simpl. rewrite app_nil_r.
    repeat split; try reflexivity; lia.
  - pose proof (objects_of_length rest) as Hobj.
    cbn [records_loop].
    destruct x as [| b | z | f | str | l | d];
      try (unfold bind, logger, emit;
           destruct (IH (S i) s (S e) (tr ++ [EvLog (LogBadFormat i)]))
             as (s' & e' & added & Hrun & Hb & Ha & Hs & He & Hsum);
           exists s', e', (EvLog (LogBadFormat i) :: added);
           rewrite Hrun, <- app_assoc;
           repeat split; try assumption; try reflexivity;
           simpl in *; lia).
    unfold bind, try_except.
    destruct (single_record_effects d tr)
      as (r & added1 & Hrun1 & Hb1 & Ha1).
    rewrite Hrun1.
    destruct r; unfold ret; cbn [fst snd].
    + destruct (IH (S i) (S s) e (tr ++ added1))
        as (s' & e' & added & Hrun & Hb & Ha & Hs & He & Hsum).
      exists s', e', (added1 ++ added). rewrite Hrun, <- app_assoc.
      repeat split.
      * rewrite built_app, Hb1, Hb. reflexivity.
      * rewrite filter_answer_app, Ha1, Ha. reflexivity.
      * simpl. lia.
      * simpl. lia.
      * simpl. lia.
    + destruct (IH (S i) s (S e) (tr ++ added1))
        as (s' & e' & added & Hrun & Hb & Ha & Hs & He & Hsum).
      exists s', e', (added1 ++ added). rewrite Hrun, <- app_assoc.
      repeat split.
      * rewrite built_app, Hb1, Hb. reflexivity.
      * rewrite filter_answer_app, Ha1, Ha. reflexivity.
      * simpl. lia.
      * simpl. lia.
      * simpl. lia.
Qed.

(** In the loop of the batch processor every object element is handed
    to [build_network] once, normalized, in the order of the batch,
    whether or not it is valid; elements that are not objects never
    reach the controller. *)
Theorem loop_builds_objects_in_order (records : list value) (i s e : nat)
  (tr : list (event Network)) :
  built (snd (records_loop
                (_process_single_wifi_record build_network save_network)
                i records s e tr))
  = built tr ++ map _prepare_wifi_data (objects_of records).
Proof.
  destruct (records_loop_built records i s e tr)
    as (s' & e' & added & Hrun & Hb & _).
  rewrite Hrun. cbn [snd]. rewrite built_app, Hb. reflexivity.
Qed.

(** For a non-empty batch the user gets two answers, the announcement
    and the summary, however many elements fail; in the summary the
    successes are at most the object elements and the errors at least
    the elements that are not objects. *)
Theorem batch_two_answers (records : list value) (tr : list (event Network)) :
  records <> [] ->
  exists (s e : nat) (added : list (event Network)),
    _process_multiple_wifi_records build_network save_network records tr
    = (inr tt, tr ++ added)
    /\ List.filter is_answer added
       = [EvAnswer (AnsStart (length records));
          EvAnswer (AnsResult s e (length records))]
    /\ s <= length (objects_of records)
    /\ length records - length (objects_of records) <= e.
Proof.
  intros Hne.
  unfold _process_multiple_wifi_records, process_records_with.
  destruct records as [|x rest]; [congruence |].
  unfold message_answer, bind, emit.
  destruct (records_loop_built (x :: rest) 1 0 0
              (tr ++ [EvAnswer (AnsStart (length (x :: rest)))]))
    as (s & e & added & Hrun & _ & Ha & Hs & He & _).
  rewrite Hrun. cbn [fst snd].
  exists s, e,
    ([EvAnswer (AnsStart (length (x :: rest)))] ++ added
     ++ [EvAnswer (AnsResult s e (length (x :: rest)))]).
  split; [rewrite <- !app_assoc; reflexivity |].
  split; [| split; [exact Hs | exact He]].
  rewrite !filter_answer_app, Ha. reflexivity.
Qed.

Lemma records_loop_storage_ok (records : list value) (i s e : nat)
  (tr : list (event Network)) :
  (forall tr0 d, exists network, build_network tr0 d = inr network) ->
  (forall tr0 network, save_network tr0 network = inr true) ->
  exists tr' : list (event Network),
    records_loop (_process_single_wifi_record build_network save_network)
      i records s e tr
    = (inr (s + length (objects_of records),
            e + (length records - length (objects_of records))), tr').
Proof.
  intros Hbuild Hsave. revert i s e tr.
  induction records as [|x rest IH]; intros i s e tr.
  - exists tr. simpl. rewrite !Nat.add_0_r. reflexivity.
  - pose proof (objects_of_length rest) as Hobj.
    cbn [records_loop].
    destruct x as [| b | z | f | str | l | d];
      try (unfold bind, logger, emit;
           destruct (IH (S i) s (S e) (tr ++ [EvLog (LogBadFormat i)]))
             as (tr' & Hrun);
           exists tr'; rewrite Hrun; simpl; do 2 f_equal; f_equal; lia).
    unfold bind, try_except. rewrite single_record_run.
    destruct (Hbuild tr (_prepare_wifi_data d)) as [network Hn].
    rewrite Hn, Hsave. unfold ret. cbn [fst snd].
    destruct (IH (S i) (S s) e
                (tr ++ [EvBuild (_prepare_wifi_data d); EvSave network]))
      as (tr' & Hrun).
    exists tr'. rewrite Hrun. simpl. do 2 f_equal; f_equal; lia.
Qed.

(** With a controller that never fails, the summary counts every object
    element as a success and every other element as an error; whether an
    object passes the validator plays no part. *)
Theorem batch_counts_when_storage_ok (records : list value)
  (tr : list (event Network)) :
  (forall tr0 d, exists network, build_network tr0 d = inr network) ->
  (forall tr0 network, save_network tr0 network = inr true) ->
  records <> [] ->
  exists tr' : list (event Network),
    _process_multiple_wifi_records build_network save_network records tr
    = (inr tt,
       tr' ++ [EvAnswer (AnsResult (length (objects_of records))
                           (length records - length (objects_of records))
                           (length records))]).
Proof.
  intros Hbuild Hsave Hne.
  unfold _process_multiple_wifi_records, process_records_with.
  destruct records as [|x rest]; [congruence |].
  unfold message_answer, bind, emit.
  destruct (records_loop_storage_ok (x :: rest) 1 0 0
              (tr ++ [EvAnswer (AnsStart (length (x :: rest)))]) Hbuild Hsave)
    as (tr' & Hrun).
  rewrite Hrun. cbn [fst snd]. exists tr'. reflexivity.
Qed.

(** ** Entry points: what reaches the controller, what the user is told *)

Lemma storage_calls_app (tr1 tr2 : list (event Network)) :
  List.filter is_storage_call tr2 = [] ->
  List.filter is_storage_call (tr1 ++ tr2) = List.filter is_storage_call tr1.
Proof. intros H. rewrite List.filter_app, H. apply app_nil_r. Qed.

(** A batch without any object only logs its elements. *)
Lemma records_loop_no_objects (single : gmap string value -> M Network bool)
  (records : list value) (i s e : nat) (tr : list (event Network)) :
  objects_of records = [] ->
  records_loop single i records s e tr
  = (inr (s, e + length records),
     tr ++ map (fun k => EvLog (LogBadFormat k)) (seq i (length records))).
Proof.
  revert i e tr. induction records as [|x rest IH]; intros i e tr Hobj.
  - simpl. rewrite Nat.add_0_r, app_nil_r. reflexivity.
  - cbn [records_loop].
    destruct x as [| b | z | f | str | l | d]; try discriminate;
      unfold bind, logger, emit; rewrite IH by exact Hobj;
      simpl; rewrite <- app_assoc; do 2 f_equal; f_equal; lia.
Qed.

Lemma storage_calls_of_logs (ks : list nat) :
  List.filter (@is_storage_call Network)
    (map (fun k => EvLog (LogBadFormat k)) ks) = [].
Proof. induction ks; simpl; auto. Qed.

Lemma batch_no_objects_no_storage (items : list value)
  (tr : list (event Network)) :
  objects_of items = [] ->
  List.filter is_storage_call
    (snd (_process_multiple_wifi_records build_network save_network items tr))
  = List.filter is_storage_call tr.
Proof.
  intros Hobj. unfold _process_multiple_wifi_records, process_records_with.
  destruct items as [|x rest]; [apply storage_calls_app; reflexivity |].
  unfold message_answer, bind, emit.
  rewrite records_loop_no_objects by exact Hobj. cbn [fst snd].
  rewrite <- !app_assoc. apply storage_calls_app.
  simpl. rewrite List.filter_app, storage_calls_of_logs. reflexivity.
Qed.

Lemma dispatch_storage_needs_accepted (saved_text : answer)
  (parsed : value) (tr : list (event Network)) :
  List.filter is_storage_call
    (snd (dispatch_parsed build_network save_network saved_text parsed tr))
  <> List.filter is_storage_call tr ->
  (exists d, parsed = VDict d /\ _is_example_payload parsed = false)
  \/ (exists items, parsed = VList items
                    /\ any_example items = false
                    /\ objects_of items <> []).
Proof.
  intros Hcalls.
  destruct parsed as [| b | z | f | str | items | d];
    try (exfalso; apply Hcalls; apply storage_calls_app; reflexivity).
  - right. exists items. simpl in Hcalls.
    destruct (any_example items) eqn:Hex.
    + exfalso. apply Hcalls. apply storage_calls_app. reflexivity.
    + repeat split. intros Hobj. apply Hcalls.
      apply batch_no_objects_no_storage. exact Hobj.
  - left. exists d. split; [reflexivity |].
    unfold dispatch_parsed in Hcalls.
    destruct (_is_example_payload (VDict d)); [| reflexivity].
    exfalso. apply Hcalls. apply storage_calls_app. reflexivity.
Qed.

(** The controller is called only for a document that parses to an
    object the detector does not flag, or to a list that holds at least
    one object and no flagged object.  A text that does not parse, a
    scalar or null, a flagged object, a list with a flagged object, an
    empty list and a list without objects cause no storage call, through
    the text handler and through the file handler alike. *)
Theorem storage_needs_accepted_document (text : option string)
  (tr : list (event Network)) :
  List.filter is_storage_call
    (snd (handle_text_or_file build_network save_network json_loads text tr))
  <> List.filter is_storage_call tr
  \/ List.filter is_storage_call
       (snd (_process_json_file_content build_network save_network json_loads
               (default "" text) tr))
     <> List.filter is_storage_call tr ->
  exists parsed : value,
    json_loads (default "" text) = inr parsed
    /\ ((exists d, parsed = VDict d /\ _is_example_payload parsed = false)
        \/ (exists items, parsed = VList items
                          /\ any_example items = false
                          /\ objects_of items <> [])).
Proof.
  unfold handle_text_or_file, _process_json_file_content.
  unfold bind at 1. unfold logger, emit.
  destruct (json_loads (default "" text)) as [err | parsed].
  - intros [H | H]; exfalso; apply H.
    + unfold message_answer, emit. simpl.
      rewrite <- app_assoc. apply storage_calls_app. reflexivity.
    + apply storage_calls_app. reflexivity.
  - intros [H | H]; exists parsed; (split; [reflexivity |]).
    + apply (dispatch_storage_needs_accepted AnsSaved parsed
               (tr ++ [EvLog LogIncoming])).
      rewrite (storage_calls_app tr [EvLog LogIncoming]) by reflexivity.
      exact H.
    + apply (dispatch_storage_needs_accepted AnsSavedFromFile parsed tr).
      exact H.
Qed.

(** For a lone object that the detector does not flag, the text handler
    runs the single-record processor on it and sends the confirmation
    exactly when that returned true; when the record is not saved the
    user gets no answer at all. *)
Theorem single_object_reply (text : option string) (d : gmap string value)
  (tr : list (event Network)) :
  json_loads (default "" text) = inr (VDict d) ->
  _is_example_payload (VDict d) = false ->
  exists (r : bool) (tr1 : list (event Network)),
    _process_single_wifi_record build_network save_network d
      (tr ++ [EvLog LogIncoming])
    = (inr r, tr1)
    /\ handle_text_or_file build_network save_network json_loads text tr
       = (inr tt, if r then tr1 ++ [EvAnswer AnsSaved] else tr1)
    /\ List.filter is_answer tr1 = List.filter is_answer tr.
Proof.
  intros Hparse Hreal.
  destruct (single_record_effects d (tr ++ [EvLog LogIncoming]))
    as (r & added & Hrun & _ & Ha).
  exists r, ((tr ++ [EvLog LogIncoming]) ++ added). split; [exact Hrun |].
  split.
  - unfold handle_text_or_file. unfold bind at 1. unfold logger, emit.
    rewrite Hparse. unfold dispatch_parsed. rewrite Hreal.
    unfold bind. rewrite Hrun. destruct r; reflexivity.
  - rewrite !filter_answer_app, Ha. simpl. rewrite !app_nil_r. reflexivity.
Qed.

End ProcessorFacts.

Lemma batch_two_answers_witness :
  exists (s e : nat) (added : list (event (gmap string value))),
    _process_multiple_wifi_records Sample.build_ok Sample.save_ok
      [VDict Sample.office; VInt 7] []
    = (inr tt, [] ++ added)
    /\ List.filter is_answer added
       = [EvAnswer (AnsStart (length [VDict Sample.office; VInt 7]));
          EvAnswer (AnsResult s e (length [VDict Sample.office; VInt 7]))]
    /\ s <= length (objects_of [VDict Sample.office; VInt 7])
    /\ length [VDict Sample.office; VInt 7]
       - length (objects_of [VDict Sample.office; VInt 7]) <= e.
Proof.
  apply (batch_two_answers Sample.build_ok Sample.save_ok
           [VDict Sample.office; VInt 7] []).
  discriminate.
Defined.

Lemma batch_counts_when_storage_ok_witness :
  exists tr' : list (event (gmap string value)),
    _process_multiple_wifi_records Sample.build_ok Sample.save_ok
      [VDict Sample.zero_frequency; VInt 7; VDict Sample.office] []
    = (inr tt,
       tr' ++ [EvAnswer
                 (AnsResult
                    (length (objects_of [VDict Sample.zero_frequency; VInt 7;
                                         VDict Sample.office]))
                    (length [VDict Sample.zero_frequency; VInt 7;
                             VDict Sample.office]
                     - length (objects_of [VDict Sample.zero_frequency; VInt 7;
                                           VDict Sample.office]))
                    (length [VDict Sample.zero_frequency; VInt 7;
                             VDict Sample.office]))]).
Proof.
  apply (batch_counts_when_storage_ok Sample.build_ok Sample.save_ok
           [VDict Sample.zero_frequency; VInt 7; VDict Sample.office] []).
  - intros tr0 d. exists d. reflexivity.
  - intros tr0 network. reflexivity.
  - discriminate.
Defined.

Lemma storage_needs_accepted_document_witness :
  exists parsed : value,
    Sample2.loads_batch (default "" (Some "batch")) = inr parsed
    /\ ((exists d, parsed = VDict d /\ _is_example_payload parsed = false)
        \/ (exists items, parsed = VList items
                          /\ any_example items = false
                          /\ objects_of items <> [])).
Proof.
  apply (storage_needs_accepted_document Sample.build_ok Sample.save_ok
           Sample2.loads_batch (Some "batch") []).
  left. vm_compute. discriminate.
Defined.

Lemma single_object_reply_witness :
  exists (r : bool) (tr1 : list (event (gmap string value))),
    _process_single_wifi_record Sample.build_ok Sample2.save_refused
      Sample.office ([] ++ [EvLog LogIncoming])
    = (inr r, tr1)
    /\ handle_text_or_file Sample.build_ok Sample2.save_refused
         Sample2.loads_object (Some "object") []
       = (inr tt, if r then tr1 ++ [EvAnswer AnsSaved] else tr1)
    /\ List.filter is_answer tr1 = List.filter is_answer [].
Proof.
  apply (single_object_reply Sample.build_ok Sample2.save_refused
           Sample2.loads_object (Some "object") Sample.office []).
  - reflexivity.
  - vm_compute. reflexivity.
Defined.

(** A refused save leaves the user without any answer. *)
Example refused_save_is_silent :
  List.filter is_answer
    (snd (handle_text_or_file Sample.build_ok Sample2.save_refused
            Sample2.loads_object (Some "object") []))
  = [].
Proof. vm_compute. reflexivity. Qed.

(** ** The table of stored records *)

Section TableFacts.

Variable V : Type.
Variable py_str : V -> Table.text.


(** A text longer than the width is cut to exactly the width: its first
    [width - 1] characters followed by the ellipsis.  A text that fits,
    and only such a text, is returned as it is. *)
Theorem truncate_cut_or_kept (v : V) (width : Z) :
  (1 <= width)%Z ->
  (Table._truncate V py_str (Some v) width = py_str v
   <-> (Z.of_nat (length (py_str v)) <= width)%Z)
  /\ ((width < Z.of_nat (length (py_str v)))%Z ->
      Table._truncate V py_str (Some v) width
      = take (Z.to_nat (width - 1)) (py_str v) ++ [Table.ellipsis]
      /\ Z.of_nat (length (Table._truncate V py_str (Some v) width)) = width).
Proof.
  intros Hw. unfold Table._truncate. cbv zeta.
  destruct (Z.leb_spec (Z.of_nat (length (py_str v))) width) as [Hle | Hgt].
  - split; [split; auto | lia].
  - replace (Z.max 0 (width - 1)) with (width - 1)%Z by lia.
    split.
    + split; [| lia]. intros Heq.
      apply (f_equal (@length N)) in Heq.
      rewrite length_app, length_take in Heq. simpl in Heq. lia.
    + intros _. split; [reflexivity |].
      rewrite length_app, length_take. simpl. lia.
Qed.

Lemma lit_length (s : string) : length (Table.lit s) = String.length s.
Proof.
  unfold Table.lit. rewrite length_map.
  induction s as [|c s IH]; simpl; [reflexivity | rewrite IH; reflexivity].
Qed.

Lemma truncate_length_nat (value : option V) (width : nat) :
  1 <= width ->
  length (Table._truncate V py_str value (Z.of_nat width)) <= width.
Proof.
  intros Hw. unfold Table._truncate.
  destruct value as [v|]; [| simpl; lia].
  cbv zeta.
  destruct (Z.leb_spec (Z.of_nat (length (py_str v))) (Z.of_nat width))
    as [Hle | Hgt].
  - lia.
  - rewrite length_app, length_take. simpl. lia.
Qed.

Lemma format_row_length (r : gmap string V) :
  length (Table.format_row V py_str r) <= 68.
Proof.
  unfold Table.format_row. rewrite !length_app, !lit_length. simpl.
  pose proof (truncate_length_nat (r !! "bssid") 17 ltac:(lia)) as Hb.
  pose proof (truncate_length_nat (r !! "ssid") 20 ltac:(lia)) as Hs.
  pose proof (truncate_length_nat (r !! "rssi") 4 ltac:(lia)) as Hr.
  pose proof (truncate_length_nat (r !! "frequency") 5 ltac:(lia)) as Hf.
  pose proof (truncate_length_nat (r !! "timestamp") 10 ltac:(lia)) as Ht.
  change (Z.of_nat 17) with 17%Z in Hb. change (Z.of_nat 20) with 20%Z in Hs.
  change (Z.of_nat 4) with 4%Z in Hr. change (Z.of_nat 5) with 5%Z in Hf.
  change (Z.of_nat 10) with 10%Z in Ht. lia.
Qed.

(** A row of the table is between 12 and 68 characters long, whatever
    the record holds: the four separators are always there, and the five
    cells are cut to 17, 20, 4, 5 and 10 characters. *)
Theorem format_row_width (r : gmap string V) :
  12 <= length (Table.format_row V py_str r) <= 68.
Proof.
  split; [| apply format_row_length].
  unfold Table.format_row. rewrite !length_app, !lit_length. simpl. lia.
Qed.

Lemma join_rows_length (first : Table.text) (rows : list Table.text) (w : nat) :
  Forall (fun row => length row <= w) rows ->
  length (Table.join [Table.newline] (first :: rows))
  <= length first + (w + 1) * length rows.
Proof.
  revert first. induction rows as [|row rows IH]; intros first Hall.
  - simpl. lia.
  - inversion Hall as [|? ? Hrow Hrest]; subst.
    change (Table.join [Table.newline] (first :: row :: rows))
      with (first ++ [Table.newline]
            ++ Table.join [Table.newline] (row :: rows)).
    rewrite !length_app. specialize (IH row Hrest). simpl in *. lia.
Qed.

Lemma table_length (records : list (gmap string V)) :
  records <> [] ->
  length (Table._format_records_table V py_str records)
  <= 38 + 69 * length records.
Proof.
  intros Hne. destruct records as [|r rest]; [congruence |].
  unfold Table._format_records_table.
  pose proof (join_rows_length Table.header
                (map (Table.format_row V py_str) (r :: rest)) 68) as H.
  rewrite length_map in H.
  assert (Hh : length Table.header = 38) by (vm_compute; reflexivity).
  rewrite Hh in H. apply H.
  apply Forall_forall. intros row Hin.
  apply list_elem_of_fmap in Hin. destruct Hin as (r0 & -> & _).
  apply format_row_length.
Qed.

(** A table of at most 57 records is sent as one message, with the
    keyboard: its text is at most 4000 characters long. *)
Theorem show_table_single_message (records : list (gmap string V)) :
  records <> [] ->
  length records <= 57 ->
  length (Table._format_records_table V py_str records) <= 4000
  /\ Table.show_table V py_str (inr records)
     = [Table.ReplyLogCount (length records);
        Table.ReplyMarkdown
          (Table.code_block (Table._format_records_table V py_str records))
          true;
        Table.ReplyCallbackAnswer].
Proof.
  intros Hne Hn. pose proof (table_length records Hne) as Hlen.
  assert (Hle : length (Table._format_records_table V py_str records) <= 4000)
    by lia.
  split; [exact Hle |].
  unfold Table.show_table. destruct records as [|r rest]; [congruence |].
  cbv zeta.
  destruct (Nat.ltb_spec 4000
              (length (Table._format_records_table V py_str (r :: rest))));
    [lia | reflexivity].
Qed.

End TableFacts.


Lemma truncate_cut_or_kept_witness :
  (Table._truncate Table.text TableSample.py_str (Some TableSample.long_name) 20
   = TableSample.py_str TableSample.long_name
   <-> (Z.of_nat (length (TableSample.py_str TableSample.long_name)) <= 20)%Z)
  /\ ((20 < Z.of_nat (length (TableSample.py_str TableSample.long_name)))%Z ->
      Table._truncate Table.text TableSample.py_str
        (Some TableSample.long_name) 20
      = take (Z.to_nat (20 - 1)) (TableSample.py_str TableSample.long_name)
        ++ [Table.ellipsis]
      /\ Z.of_nat (length (Table._truncate Table.text TableSample.py_str
                             (Some TableSample.long_name) 20)) = 20%Z).
Proof.
  apply (truncate_cut_or_kept Table.text TableSample.py_str
           TableSample.long_name 20).
  lia.
Defined.

(** The row of the sample record: the long name is cut to 20 characters
    and the two fields the record lacks are empty. *)
Example format_row_sample :
  Table.format_row Table.text TableSample.py_str TableSample.net
  = Table.lit "AA:BB:CC:DD:EE:FF | A network name of m"
    ++ [Table.ellipsis] ++ Table.lit " | -65 |  | ".
Proof. vm_compute. reflexivity. Qed.

Lemma show_table_single_message_witness :
  length (Table._format_records_table Table.text TableSample.py_str
            [TableSample.net]) <= 4000
  /\ Table.show_table Table.text TableSample.py_str (inr [TableSample.net])
     = [Table.ReplyLogCount (length [TableSample.net]);
        Table.ReplyMarkdown
          (Table.code_block
             (Table._format_records_table Table.text TableSample.py_str
                [TableSample.net]))
          true;
        Table.ReplyCallbackAnswer].
Proof.
  apply (show_table_single_message Table.text TableSample.py_str
           [TableSample.net]).
  - discriminate.
  - simpl. lia.
Defined.

(** ** Splitting a long text into parts *)

Lemma concat_take_steps {A : Type} (step m : nat) (t : list A) :
  concat (map (fun i => take step (drop i t))
              (map (fun k => k * step) (seq 0 m)))
  = take (m * step) t.
Proof.
  induction m as [|m IH].
  - reflexivity.
  - rewrite seq_S, !map_app, concat_app, IH. simpl.
    rewrite app_nil_r, take_take_drop. f_equal. lia.
Qed.

Lemma range_step_covers (n step : nat) :
  0 < step -> n <= (n + step - 1) / step * step.
Proof.
  intros Hs.
  pose proof (Nat.div_mod_eq (n + step - 1) step) as Hdm.
  pose proof (Nat.mod_upper_bound (n + step - 1) step ltac:(lia)) as Hmod.
  nia.
Qed.

Lemma range_step_below (n step k : nat) :
  0 < step -> k < (n + step - 1) / step -> k * step < n.
Proof.
  intros Hs Hk.
  pose proof (Nat.div_mod_eq (n + step - 1) step) as Hdm.
  pose proof (Nat.mod_upper_bound (n + step - 1) step ltac:(lia)) as Hmod.
  nia.
Qed.

Lemma split_parts_rejoin {A : Type} (step : nat) (t : list A) :
  0 < step -> concat (Table.split_parts step t) = t.
Proof.
  intros Hs. unfold Table.split_parts, Table.range_step.
  rewrite concat_take_steps. apply take_ge.
  apply range_step_covers. exact Hs.
Qed.

Lemma split_parts_bounds {A : Type} (step : nat) (t part : list A) :
  0 < step -> part ∈ Table.split_parts step t -> 1 <= length part <= step.
Proof.
  intros Hs Hin. unfold Table.split_parts, Table.range_step in Hin.
  apply list_elem_of_fmap in Hin. destruct Hin as (i & -> & Hi).
  apply list_elem_of_fmap in Hi. destruct Hi as (k & -> & Hk).
  apply elem_of_seq in Hk.
  pose proof (range_step_below (length t) step k Hs ltac:(lia)) as Hlt.
  rewrite length_take, length_drop. lia.
Qed.

(** Cutting a text into parts of [step] characters loses nothing: the
    parts put together give the text back, and every part holds at
    least one and at most [step] characters. *)
Theorem split_parts_concat {A : Type} (step : nat) (t : list A) :
  0 < step ->
  concat (Table.split_parts step t) = t
  /\ Forall (fun part => 1 <= length part <= step) (Table.split_parts step t).
Proof.
  intros Hs. split.
  - apply split_parts_rejoin. exact Hs.
  - apply Forall_forall. intros part Hin.
    apply (split_parts_bounds step t part Hs Hin).
Qed.

Lemma split_parts_concat_witness :
  concat (Table.split_parts 3 [1; 2; 3; 4; 5; 6; 7]) = [1; 2; 3; 4; 5; 6; 7]
  /\ Forall (fun part => 1 <= length part <= 3)
       (Table.split_parts 3 [1; 2; 3; 4; 5; 6; 7]).
Proof. apply (split_parts_concat 3 [1; 2; 3; 4; 5; 6; 7]). lia. Defined.

Section ShowTableFacts.

Variable V : Type.
Variable py_str : V -> Table.text.

Lemma code_block_length (part : Table.text) :
  length (Table.code_block part) = length part + 8.
Proof.
  unfold Table.code_block. rewrite !length_app. simpl. lia.
Qed.

(** Whatever the controller returns, no message of [show_table] carries
    more than 4008 characters, and a table too long for one message is
    sent whole, in parts that follow one another. *)
Theorem show_table_messages_bounded
  (outcome : exn + list (gmap string V)) :
  (forall body kb,
      Table.ReplyMarkdown body kb ∈ Table.show_table V py_str outcome ->
      length body <= 4008)
  /\ (forall records,
         outcome = inr records ->
         4000 < length (Table._format_records_table V py_str records) ->
         exists parts : list Table.text,
           Table.show_table V py_str outcome
           = Table.ReplyLogCount (length records)
             :: map (fun part => Table.ReplyMarkdown (Table.code_block part) false)
                    parts
             ++ [Table.ReplyCallbackAnswer]
           /\ concat parts = Table._format_records_table V py_str records).
Proof.
  split.
  - intros body kb Hin. unfold Table.show_table in Hin.
    destruct outcome as [exc | records].
    + repeat (apply elem_of_cons in Hin; destruct Hin as [Hin | Hin];
              [discriminate |]).
      inversion Hin.
    + apply elem_of_cons in Hin. destruct Hin as [Hin | Hin]; [discriminate |].
      destruct records as [|r rest].
      * repeat (apply elem_of_cons in Hin; destruct Hin as [Hin | Hin];
                [discriminate |]).
        inversion Hin.
      * cbv zeta in Hin.
        destruct (Nat.ltb_spec 4000
                    (length (Table._format_records_table V py_str (r :: rest))))
          as [Hlong | Hshort].
        -- apply elem_of_app in Hin. destruct Hin as [Hin | Hin].
           ++ apply list_elem_of_fmap in Hin. destruct Hin as (part & Heq & Hp).
              assert (Hb : body = Table.code_block part) by congruence.
              destruct (split_parts_bounds 4000
                          (Table._format_records_table V py_str (r :: rest))
                          part ltac:(lia) Hp) as [_ Hle].
              rewrite Hb, code_block_length. lia.
           ++ apply elem_of_cons in Hin. destruct Hin as [Hin | Hin];
                [discriminate | inversion Hin].
        -- apply elem_of_cons in Hin. destruct Hin as [Hin | Hin].
           ++ assert (Hb : body
                           = Table.code_block
                               (Table._format_records_table V py_str (r :: rest)))
                by congruence.
              rewrite Hb, code_block_length. lia.
           ++ apply elem_of_cons in Hin. destruct Hin as [Hin | Hin];
                [discriminate | inversion Hin].
  - intros records -> Hlong.
    exists (Table.split_parts 4000
              (Table._format_records_table V py_str records)).
    split.
    + unfold Table.show_table. destruct records as [|r rest].
      * simpl in Hlong. vm_compute in Hlong. lia.
      * cbv zeta.
        destruct (Nat.ltb_spec 4000
                    (length (Table._format_records_table V py_str (r :: rest))));
          [reflexivity | lia].
    + apply split_parts_rejoin. lia.
Qed.

Lemma markdown_not_callback (parts : list Table.text) :
  List.filter Table.is_callback_answer
    (map (fun part => Table.ReplyMarkdown (Table.code_block part) false) parts)
  = [].
Proof. induction parts as [|p ps IH]; [reflexivity | exact IH]. Qed.

(** On every path [show_table] acknowledges the callback once, as its
    last action. *)
Theorem show_table_acknowledges (outcome : exn + list (gmap string V)) :
  List.filter Table.is_callback_answer (Table.show_table V py_str outcome)
  = [Table.ReplyCallbackAnswer]
  /\ last (Table.show_table V py_str outcome) = Some Table.ReplyCallbackAnswer.
Proof.
  unfold Table.show_table.
  destruct outcome as [exc | [|r rest]]; try (split; reflexivity).
  cbv zeta.
  destruct (4000 <? length (Table._format_records_table V py_str (r :: rest)))%nat.
  - split.
    + simpl. rewrite List.filter_app. simpl.
      rewrite markdown_not_callback. reflexivity.
    + rewrite last_cons, last_snoc. reflexivity.
  - split; reflexivity.
Qed.

End ShowTableFacts.

(** ** Log level names *)

Lemma levels_value_has_no_entry (name translated : string) :
  levels !! name = Some translated -> levels !! translated = None.
Proof.
  unfold levels. intros H.
  repeat (apply lookup_insert_Some in H;
          destruct H as [[_ <-] | [_ H]]; [vm_compute; reflexivity |]).
  rewrite lookup_empty in H. discriminate.
Qed.

(** Translating a level name twice gives what translating it once gives:
    no Russian name is itself an entry of the table, and a name without
    an entry is left as it is. *)
Theorem russian_level_idempotent (name : string) :
  russian_level (russian_level name) = russian_level name.
Proof.
  unfold russian_level.
  destruct (levels !! name) as [translated|] eqn:Hname; simpl.
  - rewrite (levels_value_has_no_entry name translated Hname). reflexivity.
  - rewrite Hname. reflexivity.
Qed.
